(** * VelocityMesh quantum-inspired workflow engine: selection, collapse and
      evolutionary fitness tracking

    A shallow embedding of [src/ai-engine/quantum_workflow_engine.py]:
    the variant catalog, the context analysis, the variant scoring and
    selection, the execution planner, the consciousness level and
    [collapse_workflow] of [QuantumWorkflowEngine]; [track_execution] with
    its two helpers of [WorkflowEvolutionTracker]; the intent analysis of
    [ConsciousnessEngine]; and the trigger patterns learned by
    [PredictiveExecutionEngine].

    Conventions of the embedding.
    - Python floats are read as exact rationals ([Q]): every statement below
      is about the arithmetic the source writes down, not about binary64
      rounding.  Equality of computed numbers is [Qeq] ([==]).
    - A Python dict that is used as a map (the execution context, the
      registries of the engine and of the tracker) is a [gmap] over strings;
      a dict with a fixed set of keys is a record; a key that may be absent
      is an [option] field.
    - [time.time()] is an explicit argument [now].
    - Methods that mutate [self] are functions in a state-and-exception monad
      [M S A := S -> result A * S]; a raise keeps the mutations made before
      it, as in Python. *)

From Stdlib Require Import QArith Lqa Sorted.
From stdpp Require Import gmap strings list.

Open Scope Q_scope.

(** ** Python-level plumbing *)

(** The built-in exceptions the modelled methods can raise. *)
Inductive exn : Type :=
| ValueError (msg : string)
| KeyError (key : string)
| IndexError.

Inductive result (A : Type) : Type :=
| Ok (a : A)
| Raise (e : exn).
Arguments Ok {A} a.
Arguments Raise {A} e.

Definition is_Ok {A} (r : result A) : bool :=
  match r with Ok _ => true | Raise _ => false end.

Definition M (S A : Type) : Type := S -> result A * S.

Definition ret {S A} (a : A) : M S A := fun s => (Ok a, s).
Definition raise {S A} (e : exn) : M S A := fun s => (Raise e, s).
Definition bind {S A B} (m : M S A) (k : A -> M S B) : M S B :=
  fun s => match m s with
           | (Ok a, s') => k a s'
           | (Raise e, s') => (Raise e, s')
           end.
Definition get {S} : M S S := fun s => (Ok s, s).
Definition modify {S} (f : S -> S) : M S unit := fun s => (Ok tt, f s).
Definition lift {S A} (r : result A) : M S A := fun s => (r, s).

Notation "'let*' x ':=' m 'in' k" := (bind m (fun x => k))
  (at level 10, x name, m at level 100, k at level 200).

(** [needle in hay] on Python strings: [needle] occurs as a substring. *)
Fixpoint str_in (needle hay : string) : bool :=
  String.prefix needle hay ||
  match hay with
  | EmptyString => false
  | String _ rest => str_in needle rest
  end.

(** [x in l] on a Python list of strings. *)
Definition list_in (x : string) (l : list string) : bool :=
  bool_decide (x ∈ l).

(** [sum(xs)]: a left fold starting from [0]. *)
Definition py_sum (xs : list Q) : Q := fold_left Qplus xs 0.

(** [len(xs)] as a number. *)
Definition py_len {A} (xs : list A) : Q := inject_Z (Z.of_nat (length xs)).

(** [xs[-n:]]: the last [n] elements, the whole list when it is shorter. *)
Definition py_last_n {A} (n : nat) (xs : list A) : list A :=
  drop (length xs - n) xs.

(** [True] counts as 1 and [False] as 0 under [sum]. *)
Definition Q_of_bool (b : bool) : Q := if b then 1 else 0.

(** [s.lower()].  A string is its UTF-8 bytes and only the ASCII letters
    change.  The source searches the lowered text for ASCII words without
    [k] and [i] only, the two ASCII letters that lower-casing a non-ASCII
    character can produce, so the searches give what they give in Python. *)
Definition lower_ascii (c : Ascii.ascii) : Ascii.ascii :=
  let n := Ascii.N_of_ascii c in
  if (65 <=? n)%N && (n <=? 90)%N then Ascii.ascii_of_N (n + 32) else c.

Fixpoint lower (s : string) : string :=
  match s with
  | EmptyString => EmptyString
  | String c rest => String (lower_ascii c) (lower rest)
  end.

(** ** Data model *)

Inductive WorkflowState : Type :=
| SUPERPOSITION
| COLLAPSED
| ENTANGLED
| EVOLVING
| CONSCIOUS.

Record TradeOffs : Type := {
  speed : Q;
  reliability : Q;
  resource_usage : Q
}.

Record Variant : Type := {
  type : string;
  characteristics : list string;
  trade_offs : TradeOffs
}.

(** The dict built by [ConsciousnessEngine.understand_intent]. *)
Record Intent : Type := {
  primary_goal : string;
  emotional_context : gmap string Q;
  hidden_requirements : list string;
  optimization_opportunities : list string;
  user_stress_points : list string
}.

(** The dict returned by [_analyze_execution_context]. *)
Record Weights : Type := {
  time_pressure : Q;
  resource_availability : Q;
  user_expertise : Q;
  system_load : Q;
  error_tolerance : Q
}.

(** One entry of an execution plan.  The first three keys are always there;
    the others are added by the variant-specific enhancements. *)
Record Step : Type := {
  step : string;
  step_type : string;
  consciousness_required : bool;
  parallelization : option string;
  thread_count : option Z;
  validation_depth : option string;
  validation_layers : option (list string);
  logging_level : option string;
  monitoring : option string
}.

(** A stored workflow.  The four last keys exist only once the workflow has
    been collapsed.  The keys [probability_amplitudes] (complex numbers),
    [temporal_optimizations], [entanglement_opportunities] and
    [evolution_potential] play no part in collapse and are left out. *)
Record Workflow : Type := {
  id : string;
  description : string;
  intent : Intent;
  state : WorkflowState;
  possible_implementations : list Variant;
  consciousness_level : Q;
  user_context : gmap string Q;
  creation_timestamp : Q;
  selected_variant : option Variant;
  execution_plan : option (list Step);
  execution_context : option (gmap string Q);
  collapse_timestamp : option Q
}.

(** The dict [collapsed_workflow] built and returned by [collapse_workflow]. *)
Record Collapsed : Type := {
  c_id : string;
  c_state : WorkflowState;
  c_selected_variant : Variant;
  c_execution_plan : list Step;
  c_consciousness_level : Q;
  c_execution_context : gmap string Q;
  c_collapse_timestamp : Q
}.

(** [workflow.update(collapsed_workflow)]: the seven keys of the collapsed
    dict overwrite or extend the stored one, the others stay. *)
Definition update (w : Workflow) (c : Collapsed) : Workflow :=
  {| id := c_id c;
     description := description w;
     intent := intent w;
     state := c_state c;
     possible_implementations := possible_implementations w;
     consciousness_level := c_consciousness_level c;
     user_context := user_context w;
     creation_timestamp := creation_timestamp w;
     selected_variant := Some (c_selected_variant c);
     execution_plan := Some (c_execution_plan c);
     execution_context := Some (c_execution_context c);
     collapse_timestamp := Some (c_collapse_timestamp c) |}.

(** ** WorkflowEvolutionTracker *)

Module WorkflowEvolutionTracker.

(** The dict [execution_result] handed to [track_execution], by the keys the
    method reads: ["duration"], ["success"], ["user_satisfaction"],
    ["resource_usage"], ["errors"] and ["ai_suggestions"].  Each of them may
    be absent. *)
Record ExecutionResult : Type := {
  res_duration : option Q;
  res_success : option bool;
  res_user_satisfaction : option Q;
  res_resource_usage : option Q;
  res_errors : option Z;
  res_ai_suggestions : option (list string)
}.

(** The dict [evolution_data] stored in the history. *)
Record EvolutionData : Type := {
  timestamp : Q;
  execution_time : Q;
  success_rate : bool;
  user_satisfaction : Q;
  resource_efficiency : Q;
  error_count : Z;
  improvement_suggestions : list string
}.

Record Tracker : Type := {
  evolution_history : gmap string (list EvolutionData);
  fitness_scores : gmap string Q;
  mutation_strategies : gmap string (list string)
}.

Definition set_evolution_history
    (f : gmap string (list EvolutionData) -> gmap string (list EvolutionData))
    (s : Tracker) : Tracker :=
  {| evolution_history := f (evolution_history s);
     fitness_scores := fitness_scores s;
     mutation_strategies := mutation_strategies s |}.

Definition set_fitness_scores
    (f : gmap string Q -> gmap string Q) (s : Tracker) : Tracker :=
  {| evolution_history := evolution_history s;
     fitness_scores := f (fitness_scores s);
     mutation_strategies := mutation_strategies s |}.

Definition set_mutation_strategies
    (f : gmap string (list string) -> gmap string (list string))
    (s : Tracker) : Tracker :=
  {| evolution_history := evolution_history s;
     fitness_scores := fitness_scores s;
     mutation_strategies := f (mutation_strategies s) |}.

(** [WorkflowEvolutionTracker()]: the three registries start empty. *)
Definition __init__ : Tracker :=
  {| evolution_history := ∅; fitness_scores := ∅; mutation_strategies := ∅ |}.

(** The dict literal of [track_execution], with its [get] defaults. *)
Definition evolution_data_of (execution_result : ExecutionResult) (now : Q)
    : EvolutionData :=
  {| timestamp := now;
     execution_time := default 0 (res_duration execution_result);
     success_rate := default true (res_success execution_result);
     user_satisfaction :=
       default 0.8 (res_user_satisfaction execution_result);
     resource_efficiency :=
       default 0.7 (res_resource_usage execution_result);
     error_count := default 0%Z (res_errors execution_result);
     improvement_suggestions :=
       default [] (res_ai_suggestions execution_result) |}.

(** The three averages over [recent_executions] and their weighted sum. *)
Definition fitness_of (recent_executions : list EvolutionData) : Q :=
  let avg_satisfaction :=
    py_sum (map user_satisfaction recent_executions)
    / py_len recent_executions in
  let avg_efficiency :=
    py_sum (map resource_efficiency recent_executions)
    / py_len recent_executions in
  let success_rate' :=
    py_sum (map (fun e => Q_of_bool (success_rate e)) recent_executions)
    / py_len recent_executions in
  avg_satisfaction * 0.4 + avg_efficiency * 0.3 + success_rate' * 0.3.

Definition _calculate_fitness_score (workflow_id : string) : M Tracker unit :=
  let* self := get in
  match evolution_history self !! workflow_id with
  | None => raise (KeyError workflow_id)
  | Some [] => ret tt
  | Some history =>
      let recent_executions := py_last_n 10 history in
      let fitness_score := fitness_of recent_executions in
      modify (set_fitness_scores (fun m => <[workflow_id := fitness_score]> m))
  end.

Definition moderate_mutations : list string :=
  [ "optimize_execution_order";
    "add_parallel_processing";
    "implement_caching";
    "reduce_validation_overhead";
    "improve_error_handling" ].

Definition severe_mutations : list string :=
  [ "complete_architecture_redesign";
    "alternative_implementation_strategy";
    "user_experience_overhaul";
    "integration_method_change" ].

Definition _suggest_mutations (workflow_id : string) : M Tracker unit :=
  let* self := get in
  let fitness := default 0.5 (fitness_scores self !! workflow_id) in
  let mutations := [] in
  let mutations :=
    if Qlt_le_dec fitness 0.7 then mutations ++ moderate_mutations
    else mutations in
  let mutations :=
    if Qlt_le_dec fitness 0.5 then mutations ++ severe_mutations
    else mutations in
  modify (set_mutation_strategies (fun m => <[workflow_id := mutations]> m)).

(** [self.evolution_history[workflow_id].append(evolution_data)] *)
Definition history_append (workflow_id : string) (d : EvolutionData)
    : M Tracker unit :=
  let* self := get in
  match evolution_history self !! workflow_id with
  | None => raise (KeyError workflow_id)
  | Some history =>
      modify (set_evolution_history
                (fun m => <[workflow_id := history ++ [d]]> m))
  end.

Definition track_execution
    (workflow_id : string) (execution_result : ExecutionResult) (now : Q)
    : M Tracker unit :=
  let* self := get in
  let* _ :=
    match evolution_history self !! workflow_id with
    | None => modify (set_evolution_history (fun m => <[workflow_id := []]> m))
    | Some _ => ret tt
    end in
  let evolution_data := evolution_data_of execution_result now in
  let* _ := history_append workflow_id evolution_data in
  let* _ := _calculate_fitness_score workflow_id in
  _suggest_mutations workflow_id.

End WorkflowEvolutionTracker.

(** ** QuantumWorkflowEngine *)

Module QuantumWorkflowEngine.

(** [self]: the workflow registry and the tracker the engine owns.  The
    consciousness engine, the temporal cache, the prediction engine and the
    reality simulator are not touched by [collapse_workflow]. *)
Record Engine : Type := {
  active_workflows : gmap string Workflow;
  evolution_tracker : WorkflowEvolutionTracker.Tracker
}.

Definition set_active_workflows
    (f : gmap string Workflow -> gmap string Workflow) (s : Engine) : Engine :=
  {| active_workflows := f (active_workflows s);
     evolution_tracker := evolution_tracker s |}.

Definition _generate_implementation_variants (i : Intent) : list Variant :=
  [ {| type := "speed_optimized";
       characteristics :=
         ["parallel_execution"; "minimal_validation"; "cached_results"];
       trade_offs :=
         {| speed := 0.95; reliability := 0.8; resource_usage := 0.9 |} |};
    {| type := "reliability_optimized";
       characteristics :=
         ["comprehensive_validation"; "redundant_execution";
          "extensive_logging"];
       trade_offs :=
         {| speed := 0.7; reliability := 0.98; resource_usage := 0.6 |} |};
    {| type := "learning_optimized";
       characteristics :=
         ["experimental_paths"; "a_b_testing"; "continuous_optimization"];
       trade_offs :=
         {| speed := 0.8; reliability := 0.85; resource_usage := 0.7 |} |};
    {| type := "ux_optimized";
       characteristics :=
         ["intuitive_feedback"; "proactive_communication";
          "graceful_degradation"];
       trade_offs :=
         {| speed := 0.85; reliability := 0.9; resource_usage := 0.8 |} |} ].

Definition _analyze_execution_context (context : gmap string Q) : Weights :=
  {| time_pressure := default 0.5 (context !! "urgency");
     resource_availability := default 0.8 (context !! "resources");
     user_expertise := default 0.6 (context !! "user_skill_level");
     system_load := default 0.3 (context !! "current_load");
     error_tolerance := default 0.7 (context !! "error_tolerance") |}.

Definition _calculate_variant_score
    (variant : Variant) (weights : Weights) (i : Intent) : Q :=
  let t := trade_offs variant in
  let score :=
    (speed t * time_pressure weights +
     reliability t * (1 - error_tolerance weights) +
     resource_usage t * resource_availability weights) / 3 in
  if String.eqb (primary_goal i) "customer_communication_optimization"
     && str_in "ux_optimized" (type variant)
  then score + 0.1
  else score.

(** [variant_scores.sort(key=lambda x: x[0], reverse=True)]: Python's sort
    is stable, also under [reverse=True], so entries with equal scores keep
    their order.  The stable arrangement by decreasing score is unique; it is
    computed here by insertion. *)
Fixpoint insert_desc (x : Q * Variant) (l : list (Q * Variant))
    : list (Q * Variant) :=
  match l with
  | [] => [x]
  | y :: l' =>
      if Qle_bool (fst y) (fst x) then x :: y :: l'
      else y :: insert_desc x l'
  end.

Definition sort_desc (l : list (Q * Variant)) : list (Q * Variant) :=
  foldr insert_desc [] l.

Definition _select_optimal_variant
    (workflow : Workflow) (context : gmap string Q) : result Variant :=
  let variants := possible_implementations workflow in
  let context_weights := _analyze_execution_context context in
  let variant_scores :=
    map (fun variant =>
           (_calculate_variant_score variant context_weights (intent workflow),
            variant))
        variants in
  match sort_desc variant_scores with
  | [] => Raise IndexError
  | (_, variant) :: _ => Ok variant
  end.

Definition base_step (name ty : string) (c : bool) : Step :=
  {| step := name; step_type := ty; consciousness_required := c;
     parallelization := None; thread_count := None;
     validation_depth := None; validation_layers := None;
     logging_level := None; monitoring := None |}.

Definition base_steps : list Step :=
  [ base_step "initialize" "setup" false;
    base_step "validate_inputs" "validation" true;
    base_step "execute_core_logic" "execution" true;
    base_step "handle_results" "processing" true;
    base_step "notify_completion" "communication" false ].

Definition enhance_parallel (variant : Variant) (s : Step) : Step :=
  if list_in "parallel_execution" (characteristics variant)
     && String.eqb (step_type s) "execution"
  then {| step := step s; step_type := step_type s;
          consciousness_required := consciousness_required s;
          parallelization := Some "enabled"; thread_count := Some 4%Z;
          validation_depth := validation_depth s;
          validation_layers := validation_layers s;
          logging_level := logging_level s; monitoring := monitoring s |}
  else s.

Definition enhance_validation (variant : Variant) (s : Step) : Step :=
  if list_in "comprehensive_validation" (characteristics variant)
     && String.eqb (step_type s) "validation"
  then {| step := step s; step_type := step_type s;
          consciousness_required := consciousness_required s;
          parallelization := parallelization s;
          thread_count := thread_count s;
          validation_depth := Some "comprehensive";
          validation_layers :=
            Some ["syntax"; "semantic"; "business_logic"; "security"];
          logging_level := logging_level s; monitoring := monitoring s |}
  else s.

Definition enhance_logging (variant : Variant) (s : Step) : Step :=
  if list_in "extensive_logging" (characteristics variant)
  then {| step := step s; step_type := step_type s;
          consciousness_required := consciousness_required s;
          parallelization := parallelization s;
          thread_count := thread_count s;
          validation_depth := validation_depth s;
          validation_layers := validation_layers s;
          logging_level := Some "detailed"; monitoring := Some "real_time" |}
  else s.

Definition _generate_execution_plan (variant : Variant) (i : Intent)
    : list Step :=
  map (fun s =>
         enhance_logging variant
           (enhance_validation variant (enhance_parallel variant s)))
      base_steps.

(** The dict literal [collapsed_workflow] of [collapse_workflow]. *)
Definition collapsed_of
    (workflow_id : string) (workflow : Workflow) (selected_variant : Variant)
    (execution_context : gmap string Q) (now : Q) : Collapsed :=
  {| c_id := workflow_id;
     c_state := COLLAPSED;
     c_selected_variant := selected_variant;
     c_execution_plan :=
       _generate_execution_plan selected_variant (intent workflow);
     c_consciousness_level := consciousness_level workflow;
     c_execution_context := execution_context;
     c_collapse_timestamp := now |}.

Definition collapse_workflow
    (workflow_id : string) (execution_context : gmap string Q) (now : Q)
    : M Engine Collapsed :=
  let* self := get in
  match active_workflows self !! workflow_id with
  | None =>
      raise (ValueError ("Workflow " +:+ workflow_id +:+ " not found"))
  | Some workflow =>
      let* selected_variant :=
        lift (_select_optimal_variant workflow execution_context) in
      let collapsed_workflow :=
        collapsed_of workflow_id workflow selected_variant
                     execution_context now in
      let* _ :=
        modify (set_active_workflows
                  (fun m =>
                     <[workflow_id := update workflow collapsed_workflow]> m))
      in
      ret collapsed_workflow
  end.

Definition _calculate_consciousness_level (i : Intent) : Q :=
  let base_consciousness := 0.5 in
  let base_consciousness :=
    if Qlt_le_dec 0.5 (default 0 (emotional_context i !! "stress_level"))
    then base_consciousness + 0.2 else base_consciousness in
  let base_consciousness :=
    if (3 <? length (hidden_requirements i))%nat
    then base_consciousness + 0.15 else base_consciousness in
  let base_consciousness :=
    if str_in "customer" (lower (primary_goal i))
    then base_consciousness + 0.2 else base_consciousness in
  if Qlt_le_dec 1.0 base_consciousness then 1.0 else base_consciousness.

End QuantumWorkflowEngine.

(** ** ConsciousnessEngine *)

Module ConsciousnessEngine.

(** The part of [self] that [understand_intent] writes. *)
Record Consciousness : Type := {
  memory_network : gmap string Intent
}.

Definition __init__ : Consciousness := {| memory_network := ∅ |}.

Definition _extract_primary_goal (description : string) : string :=
  if str_in "customer" description && str_in "email" description
  then "customer_communication_optimization"
  else if str_in "backup" description || str_in "save" description
  then "data_preservation_and_security"
  else if str_in "notify" description || str_in "alert" description
  then "intelligent_notification_system"
  else "workflow_automation_enhancement".

Definition _analyze_emotional_context (description : string)
    : gmap string Q :=
  <["urgency" :=
      if str_in "urgent" (lower description) then 0.7 else 0.3]>
  (<["stress_level" :=
      if str_in "problem" (lower description) then 0.8 else 0.2]>
  (<["satisfaction_potential" := 0.9]>
  (<["collaboration_need" :=
      if str_in "team" (lower description) then 0.6 else 0.3]> ∅))).

Definition _discover_hidden_requirements (description : string)
    : list string :=
  [ "error_handling_with_human_escalation";
    "security_compliance_validation";
    "performance_optimization";
    "user_experience_enhancement";
    "scalability_preparation" ].

Definition _find_optimization_paths (description : string) : list string :=
  [ "parallel_execution_opportunities";
    "caching_strategy_implementation";
    "predictive_pre-execution";
    "intelligent_batching";
    "adaptive_timing_optimization" ].

Definition _identify_user_pain_points (description : string) : list string :=
  [ "manual_repetitive_tasks";
    "context_switching_overhead";
    "error_recovery_complexity";
    "monitoring_and_visibility_gaps";
    "integration_maintenance_burden" ].

(** The dict literal [intent_analysis] of [understand_intent]. *)
Definition intent_analysis_of (workflow_description : string) : Intent :=
  {| primary_goal := _extract_primary_goal workflow_description;
     emotional_context := _analyze_emotional_context workflow_description;
     hidden_requirements :=
       _discover_hidden_requirements workflow_description;
     optimization_opportunities :=
       _find_optimization_paths workflow_description;
     user_stress_points :=
       _identify_user_pain_points workflow_description |}.

Definition understand_intent (workflow_description : string)
    : M Consciousness Intent :=
  let intent_analysis := intent_analysis_of workflow_description in
  let* _ :=
    modify (fun s =>
      {| memory_network :=
           <[workflow_description := intent_analysis]> (memory_network s) |})
  in
  ret intent_analysis.

End ConsciousnessEngine.

(** ** PredictiveExecutionEngine *)

Module PredictiveExecutionEngine.

(** The dict stored in [pattern_cache] for one workflow. *)
Record TriggerPatterns : Type := {
  likely_triggers : list string;
  confidence_scores : gmap string Q
}.

(** The part of [self] that [_learn_trigger_patterns] writes. *)
Record Predictive : Type := {
  pattern_cache : gmap string TriggerPatterns
}.

Definition customer_triggers : list string :=
  [ "new_customer_signup";
    "customer_support_request";
    "customer_feedback_received";
    "customer_churn_risk_detected" ].

Definition backup_triggers : list string :=
  [ "file_modification_detected";
    "scheduled_backup_time";
    "storage_threshold_reached";
    "critical_work_completed" ].

(** The list [trigger_patterns] built from the intent. *)
Definition trigger_patterns_of (i : Intent) : list string :=
  let trigger_patterns := [] in
  let trigger_patterns :=
    if str_in "customer" (primary_goal i)
    then trigger_patterns ++ customer_triggers else trigger_patterns in
  let trigger_patterns :=
    if str_in "backup" (primary_goal i)
    then trigger_patterns ++ backup_triggers else trigger_patterns in
  trigger_patterns.

(** [{pattern: 0.7 + np.random.random() * 0.3 for pattern in patterns}]:
    [random k] is the value of the [k]-th call of [np.random.random()] made
    by the comprehension; a pattern met again overwrites its entry. *)
Fixpoint confidence_from
    (patterns : list string) (random : nat → Q) (k : nat)
    (acc : gmap string Q) : gmap string Q :=
  match patterns with
  | [] => acc
  | pattern :: rest =>
      confidence_from rest random (S k)
        (<[pattern := 0.7 + random k * 0.3]> acc)
  end.

(** The body of the coroutine once its sleep is over. *)
Definition _learn_trigger_patterns
    (workflow_id : string) (workflow : Workflow) (random : nat → Q)
    : M Predictive unit :=
  let trigger_patterns := trigger_patterns_of (intent workflow) in
  modify (fun s =>
    {| pattern_cache :=
         <[workflow_id :=
             {| likely_triggers := trigger_patterns;
                confidence_scores :=
                  confidence_from trigger_patterns random 0 ∅ |}]>
           (pattern_cache s) |}).

End PredictiveExecutionEngine.

(** ** Vocabulary of the statements *)

Import WorkflowEvolutionTracker QuantumWorkflowEngine.

Definition customer_communication : string :=
  "customer_communication_optimization".

Definition ux_optimized : string := "ux_optimized".

(** The mean of the three weighted trade-offs, without any bonus. *)
Definition mean_score (v : Variant) (w : Weights) : Q :=
  (speed (trade_offs v) * time_pressure w +
   reliability (trade_offs v) * (1 - error_tolerance w) +
   resource_usage (trade_offs v) * resource_availability w) / 3.

(** The score as the specification words it: the bonus goes to the variant
    whose type IS the user-experience archetype. *)
Definition spec_score (v : Variant) (w : Weights) (i : Intent) : Q :=
  mean_score v w +
  (if bool_decide (type v = ux_optimized ∧
                   primary_goal i = customer_communication)
   then 0.1 else 0).

(** The score of a variant of workflow [w] under context [ctx]. *)
Definition score_in (w : Workflow) (ctx : gmap string Q) (v : Variant) : Q :=
  _calculate_variant_score v (_analyze_execution_context ctx) (intent w).

(** [v] is the earliest element of [l] with the largest [score]. *)
Definition first_max {A} (score : A -> Q) (l : list A) (v : A) : Prop :=
  ∃ l1 l2, l = l1 ++ v :: l2 ∧
           (∀ u, u ∈ l1 → score u < score v) ∧
           (∀ u, u ∈ l2 → score u <= score v).

(** [v] attains the largest score among the variants of [w]. *)
Definition max_score (w : Workflow) (ctx : gmap string Q) (v : Variant)
    : Prop :=
  v ∈ possible_implementations w ∧
  ∀ u, u ∈ possible_implementations w → score_in w ctx u <= score_in w ctx v.

(** The tie-break as the specification words it: whatever is selected has
    the smallest type name among the variants of maximal score. *)
Definition lexicographic_tie_break (w : Workflow) (ctx : gmap string Q)
    : Prop :=
  ∀ v, _select_optimal_variant w ctx = Ok v →
       ∀ u, max_score w ctx u → String.leb (type v) (type u) = true.

(** A context as the specification wants it: the five keys present, every
    value in [0,1]. *)
Definition required_keys : list string :=
  ["urgency"; "resources"; "user_skill_level"; "current_load";
   "error_tolerance"].

Definition valid_context (ctx : gmap string Q) : Prop :=
  (∀ k, k ∈ required_keys → is_Some (ctx !! k)) ∧
  (∀ k x, ctx !! k = Some x → 0 <= x ∧ x <= 1).

(** A call that fails and leaves the state as it found it. *)
Definition rejected {S A} (m : M S A) (s : S) : Prop :=
  ∃ e, m s = (Raise e, s).

Definition target_weights : Weights :=
  {| time_pressure := 0.8; resource_availability := 0.6;
     user_expertise := 0.5; system_load := 0.4; error_tolerance := 0.1 |}.

Definition Weights_eq (a b : Weights) : Prop :=
  time_pressure a == time_pressure b ∧
  resource_availability a == resource_availability b ∧
  user_expertise a == user_expertise b ∧
  system_load a == system_load b ∧
  error_tolerance a == error_tolerance b.

(** The user-experience variant of the catalog. *)
Definition ux_variant : Variant :=
  {| type := "ux_optimized";
     characteristics :=
       ["intuitive_feedback"; "proactive_communication";
        "graceful_degradation"];
     trade_offs :=
       {| speed := 0.85; reliability := 0.9; resource_usage := 0.8 |} |}.

(** Concrete inputs. *)
Definition intent_of (goal : string) : Intent :=
  {| primary_goal := goal;
     emotional_context :=
       <["urgency" := 0.3]> (<["stress_level" := 0.2]>
       (<["satisfaction_potential" := 0.9]>
       (<["collaboration_need" := 0.3]> ∅)));
     hidden_requirements :=
       ["error_handling_with_human_escalation";
        "security_compliance_validation"; "performance_optimization";
        "user_experience_enhancement"; "scalability_preparation"];
     optimization_opportunities :=
       ["parallel_execution_opportunities";
        "caching_strategy_implementation"; "predictive_pre-execution";
        "intelligent_batching"; "adaptive_timing_optimization"];
     user_stress_points :=
       ["manual_repetitive_tasks"; "context_switching_overhead";
        "error_recovery_complexity"; "monitoring_and_visibility_gaps";
        "integration_maintenance_burden"] |}.

(** A workflow as [create_quantum_workflow] stores it. *)
Definition fresh_workflow (wid goal : string) (level created : Q) : Workflow :=
  {| id := wid;
     description := "";
     intent := intent_of goal;
     state := SUPERPOSITION;
     possible_implementations :=
       _generate_implementation_variants (intent_of goal);
     consciousness_level := level;
     user_context := ∅;
     creation_timestamp := created;
     selected_variant := None;
     execution_plan := None;
     execution_context := None;
     collapse_timestamp := None |}.

Definition context_of (urgency resources skill load tolerance : Q)
    : gmap string Q :=
  <["urgency" := urgency]> (<["resources" := resources]>
  (<["user_skill_level" := skill]> (<["current_load" := load]>
  (<["error_tolerance" := tolerance]> ∅)))).

Definition scenario_context : gmap string Q := context_of 0.8 0.6 0.5 0.4 0.1.

Definition customer_workflow : Workflow :=
  fresh_workflow "qwf_1" customer_communication 0.85 1.

Definition backup_workflow : Workflow :=
  fresh_workflow "qwf_2" "data_preservation_and_security" 0.65 1.

Definition engine_with (w : Workflow) : Engine :=
  {| active_workflows := <[id w := w]> ∅;
     evolution_tracker := WorkflowEvolutionTracker.__init__ |}.

(** A variant whose type merely contains the archetype's name. *)
Definition ux_lookalike : Variant :=
  {| type := "non_ux_optimized";
     characteristics := [];
     trade_offs :=
       {| speed := 0.5; reliability := 0.5; resource_usage := 0.5 |} |}.

(** No urgency, no resources, full error tolerance: every mean is 0. *)
Definition tie_context : gmap string Q := context_of 0 0 0.5 0.3 1.

(** One value above 1, four keys missing. *)
Definition loose_context : gmap string Q := <["urgency" := 1.5]> ∅.

(** The five keys present, one value above 1. *)
Definition out_of_range_context : gmap string Q :=
  context_of 1.5 0.6 0.5 0.4 0.1.

(** Everything urgent and available, errors tolerated. *)
Definition rush_context : gmap string Q := context_of 1 1 0.5 0.3 1.

(** Nothing urgent or available, no error tolerated. *)
Definition careful_context : gmap string Q := context_of 0 0 0.5 0.3 0.

(** The engine after [backup_workflow] has been collapsed once, at time 10
    under [rush_context]. *)
Definition collapsed_engine : Engine :=
  snd (collapse_workflow "qwf_2" rush_context 10 (engine_with backup_workflow)).

(** Vocabulary for the tracker. *)
Definition average (xs : list Q) : Q := py_sum xs / py_len xs.

Definition in_unit (x : Q) : Prop := 0 <= x ∧ x <= 1.

(** The fitness the tracker computes from a stored history. *)
Definition computed_fitness (history : list EvolutionData) : Q :=
  fitness_of (py_last_n 10 history).

Definition outcome_in_range (e : EvolutionData) : Prop :=
  in_unit (user_satisfaction e) ∧ in_unit (resource_efficiency e).

(** [e'] is at least as good as [e] in the three fields the fitness reads. *)
Definition outcome_le (e e' : EvolutionData) : Prop :=
  user_satisfaction e <= user_satisfaction e' ∧
  resource_efficiency e <= resource_efficiency e' ∧
  (success_rate e = true → success_rate e' = true).

(** The suggestions that go with a fitness value. *)
Definition suggested (fitness : Q) : list string :=
  (if Qlt_le_dec fitness 0.7 then moderate_mutations else []) ++
  (if Qlt_le_dec fitness 0.5 then severe_mutations else []).

(** The tracker after one more outcome for [wid]. *)
Definition tracked (tr : Tracker) (wid : string) (d : EvolutionData)
    : Tracker :=
  let h := default [] (evolution_history tr !! wid) ++ [d] in
  {| evolution_history := <[wid := h]> (evolution_history tr);
     fitness_scores := <[wid := computed_fitness h]> (fitness_scores tr);
     mutation_strategies :=
       <[wid := suggested (computed_fitness h)]> (mutation_strategies tr) |}.

(** An execution result with the three fields the fitness reads. *)
Definition outcome (satisfaction efficiency : Q) (success : bool)
    : ExecutionResult :=
  {| res_duration := None;
     res_success := Some success;
     res_user_satisfaction := Some satisfaction;
     res_resource_usage := Some efficiency;
     res_errors := None;
     res_ai_suggestions := None |}.

(** An execution result with no field at all: the empty dict. *)
Definition no_fields : ExecutionResult :=
  {| res_duration := None; res_success := None;
     res_user_satisfaction := None; res_resource_usage := None;
     res_errors := None; res_ai_suggestions := None |}.

(** The three outcomes of the fitness scenario, recorded in turn. *)
Definition three_outcomes : M Tracker unit :=
  let* _ := track_execution "qwf_1" (outcome 0.9 0.7 true) 11 in
  let* _ := track_execution "qwf_1" (outcome 0.8 0.75 true) 12 in
  track_execution "qwf_1" (outcome 0.85 0.8 true) 13.

(** An engine in which nothing was ever created or collapsed. *)
Definition empty_engine : Engine :=
  {| active_workflows := ∅;
     evolution_tracker := WorkflowEvolutionTracker.__init__ |}.

(** Vocabulary for the further properties. *)

(** The three context keys the score reads. *)
Definition scoring_keys : list string :=
  ["urgency"; "resources"; "error_tolerance"].

Definition trade_offs_in_unit (v : Variant) : Prop :=
  in_unit (speed (trade_offs v)) ∧
  in_unit (reliability (trade_offs v)) ∧
  in_unit (resource_usage (trade_offs v)).

(** The three weights the score reads lie in [0,1]. *)
Definition scoring_weights_in_unit (w : Weights) : Prop :=
  in_unit (time_pressure w) ∧
  in_unit (resource_availability w) ∧
  in_unit (error_tolerance w).

(** Entries appear by decreasing score. *)
Definition score_ge (a b : Q * Variant) : Prop := fst b <= fst a.

(** A series of outcomes recorded one after the other. *)
Fixpoint track_many (calls : list (string * ExecutionResult * Q))
    : M Tracker unit :=
  match calls with
  | [] => ret tt
  | (wid, res, now) :: rest =>
      let* _ := track_execution wid res now in track_many rest
  end.

(** The three registries of a tracker agree: an id has a history exactly
    when it has a fitness and a suggestion list, the history is not empty,
    and both are the ones computed from the stored history. *)
Definition consistent (tr : Tracker) : Prop :=
  ∀ wid,
    match evolution_history tr !! wid with
    | Some h =>
        h ≠ [] ∧
        fitness_scores tr !! wid = Some (computed_fitness h) ∧
        mutation_strategies tr !! wid
          = Some (suggested (computed_fitness h))
    | None =>
        fitness_scores tr !! wid = None ∧
        mutation_strategies tr !! wid = None
    end.

(** The registry keys are the ids of the workflows they hold. *)
Definition keyed_by_id (eng : Engine) : Prop :=
  ∀ wid w, active_workflows eng !! wid = Some w → id w = wid.

(** A collapsed workflow holds a selection taken from its own variants and
    the plan generated for it. *)
Definition selection_sound (w : Workflow) : Prop :=
  ∀ v, selected_variant w = Some v →
       v ∈ possible_implementations w ∧
       execution_plan w = Some (_generate_execution_plan v (intent w)).

(** A registered workflow whose variant list is empty. *)
Definition bare_workflow : Workflow :=
  {| id := "qwf_0"; description := ""; intent := intent_of "";
     state := SUPERPOSITION; possible_implementations := [];
     consciousness_level := 0.5; user_context := ∅;
     creation_timestamp := 0; selected_variant := None;
     execution_plan := None; execution_context := None;
     collapse_timestamp := None |}.

(** An outcome with satisfaction [s], efficiency [e] and success [b]. *)
Definition steady (s e : Q) (b : bool) (d : EvolutionData) : Prop :=
  user_satisfaction d == s ∧ resource_efficiency d == e ∧ success_rate d = b.

(** Empty result dicts recorded for [wid] at the given times. *)
Definition empty_results (wid : string) (times : list Q)
    : list (string * ExecutionResult * Q) :=
  map (fun t => (wid, no_fields, t)) times.

(** The description mentions both words of the customer category. *)
Definition mentions_customer_email (description : string) : bool :=
  str_in "customer" description && str_in "email" description.

(** The four categories an intent can get. *)
Definition goal_categories : list string :=
  [ "customer_communication_optimization";
    "data_preservation_and_security";
    "intelligent_notification_system";
    "workflow_automation_enhancement" ].

(** The four signals of an emotional context. *)
Definition emotional_signals : list string :=
  ["urgency"; "stress_level"; "satisfaction_potential"; "collaboration_need"].

(** A source of random numbers as [np.random.random()] documents it. *)
Definition unit_random (random : nat → Q) : Prop :=
  ∀ k, 0 <= random k ∧ random k < 1.

(** A workflow whose intent was understood from [description]. *)
Definition understood_workflow (wid description : string) : Workflow :=
  {| id := wid;
     description := description;
     intent := ConsciousnessEngine.intent_analysis_of description;
     state := SUPERPOSITION;
     possible_implementations :=
       _generate_implementation_variants
         (ConsciousnessEngine.intent_analysis_of description);
     consciousness_level :=
       _calculate_consciousness_level
         (ConsciousnessEngine.intent_analysis_of description);
     user_context := ∅;
     creation_timestamp := 1;
     selected_variant := None;
     execution_plan := None;
     execution_context := None;
     collapse_timestamp := None |}.

(** The moderate remediation set as the specification lists it
    (parallelize, cache, reduce validation overhead, improve error
    handling), by the tags the source has for these four. *)
Definition spec_moderate_set : list string :=
  [ "add_parallel_processing";
    "implement_caching";
    "reduce_validation_overhead";
    "improve_error_handling" ].

(** The severe remediation set as the specification lists it (redesign,
    alternate strategy, UX overhaul), by the tags the source has for these
    three. *)
Definition spec_severe_set : list string :=
  [ "complete_architecture_redesign";
    "alternative_implementation_strategy";
    "user_experience_overhaul" ].

(** A list holds exactly the tags of a set. *)
Definition exactly_the_set (l set : list string) : Prop :=
  ∀ t, t ∈ l ↔ t ∈ set.

(** Ten failed outcomes with no satisfaction and no efficiency, recorded at
    the times 6 to 15. *)
Definition ten_failures : list (ExecutionResult * Q) :=
  map (fun t => (outcome 0 0 false, t)) [6; 7; 8; 9; 10; 11; 12; 13; 14; 15].

(** Outcomes recorded later for the same workflow. *)
Definition later_records (wid : string) (later : list (ExecutionResult * Q))
    : list (string * ExecutionResult * Q) :=
  map (fun rt => (wid, fst rt, snd rt)) later.

(** The entries these outcomes leave in the history. *)
Definition entries_of (later : list (ExecutionResult * Q))
    : list EvolutionData :=
  map (fun rt => evolution_data_of (fst rt) (snd rt)) later.

(** ** Arithmetic and list helpers *)

Lemma fold_left_Qplus_acc (xs : list Q) (a : Q) :
  fold_left Qplus xs a == a + fold_left Qplus xs 0.
Proof.
  revert a. induction xs as [|x xs IH]; intros a; simpl.
  - lra.
  - rewrite (IH (a + x)), (IH (0 + x)). lra.
Qed.

Lemma py_sum_nil : py_sum [] == 0.
Proof. reflexivity. Qed.

Lemma py_sum_cons (x : Q) (xs : list Q) : py_sum (x :: xs) == x + py_sum xs.
Proof. unfold py_sum. simpl. rewrite fold_left_Qplus_acc. lra. Qed.

Lemma py_len_cons {A} (x : A) (xs : list A) :
  py_len (x :: xs) == 1 + py_len xs.
Proof.
  unfold py_len. cbn [length]. rewrite Nat2Z.inj_succ, <- Z.add_1_l.
  rewrite inject_Z_plus. reflexivity.
Qed.

Lemma py_len_nonneg {A} (xs : list A) : 0 <= py_len xs.
Proof.
  unfold py_len. change 0 with (inject_Z 0). rewrite <- Zle_Qle. lia.
Qed.

Lemma py_len_pos {A} (xs : list A) : xs ≠ [] → 0 < py_len xs.
Proof.
  destruct xs as [|x xs]; [congruence|]. intros _.
  rewrite py_len_cons. pose proof (py_len_nonneg xs). lra.
Qed.

Lemma py_last_n_length {A} (n : nat) (xs : list A) :
  length (py_last_n n xs) = Nat.min n (length xs).
Proof. unfold py_last_n. rewrite length_drop. lia. Qed.

Lemma py_last_n_suffix {A} (n : nat) (xs : list A) :
  ∃ older, xs = older ++ py_last_n n xs.
Proof.
  exists (take (length xs - n) xs). unfold py_last_n.
  symmetry. apply take_drop.
Qed.

Lemma py_last_n_short {A} (n : nat) (xs : list A) :
  (length xs <= n)%nat → py_last_n n xs = xs.
Proof.
  intros H. unfold py_last_n.
  replace (length xs - n)%nat with 0%nat by lia. reflexivity.
Qed.

Lemma py_last_n_nonempty {A} (n : nat) (xs : list A) :
  (0 < n)%nat → xs ≠ [] → py_last_n n xs ≠ [].
Proof.
  intros Hn Hxs Hnil. apply (f_equal length) in Hnil.
  rewrite py_last_n_length in Hnil. simpl in Hnil.
  destruct xs; [congruence|]. simpl in Hnil. lia.
Qed.

Lemma py_last_n_app {A} (n : nat) (older recent : list A) :
  (n <= length recent)%nat →
  py_last_n n (older ++ recent) = py_last_n n recent.
Proof.
  intros H. unfold py_last_n. rewrite length_app, drop_app_ge by lia.
  f_equal. lia.
Qed.

Lemma py_last_n_keeps {A} (n : nat) (older recent : list A) :
  (length recent <= n)%nat →
  ∃ kept, py_last_n n (older ++ recent) = kept ++ recent.
Proof.
  intros H. unfold py_last_n. rewrite length_app.
  exists (drop (length older + length recent - n) older).
  apply drop_app_le. lia.
Qed.

(** ** Selection: the stable sort puts the earliest maximum first *)

Section StableSort.

Lemma insert_desc_elem (x y : Q * Variant) (l : list (Q * Variant)) :
  y ∈ insert_desc x l → y = x ∨ y ∈ l.
Proof.
  induction l as [|z l IH]; simpl.
  - intros H. apply list_elem_of_singleton in H. by left.
  - destruct (Qle_bool (fst z) (fst x)).
    + intros H. apply elem_of_cons in H as [->|H]; [by left|by right].
    + intros H. apply elem_of_cons in H as [->|H].
      * right. apply elem_of_cons. by left.
      * destruct (IH H) as [->|H']; [by left|].
        right. apply elem_of_cons. by right.
Qed.

Lemma sort_desc_elem (y : Q * Variant) (l : list (Q * Variant)) :
  y ∈ sort_desc l → y ∈ l.
Proof.
  revert y. induction l as [|x l IH]; intros y; simpl; [done|].
  intros H. apply insert_desc_elem in H as [->|H].
  - apply elem_of_cons. by left.
  - apply elem_of_cons. right. by apply IH.
Qed.

(** An entry at least as large as everything already sorted goes in front. *)
Lemma insert_desc_front (x : Q * Variant) (l : list (Q * Variant)) :
  (∀ y, y ∈ l → fst y <= fst x) →
  ∃ rest, insert_desc x l = x :: rest.
Proof.
  destruct l as [|z l]; simpl; [by eexists|].
  intros H. assert (Hz : fst z <= fst x).
  { apply H. apply elem_of_cons. by left. }
  apply Qle_bool_iff in Hz. rewrite Hz. by eexists.
Qed.

(** An entry strictly below the current front stays behind it. *)
Lemma insert_desc_behind (x z : Q * Variant) (l : list (Q * Variant)) :
  fst x < fst z →
  insert_desc x (z :: l) = z :: insert_desc x l.
Proof.
  intros H. simpl. destruct (Qle_bool (fst z) (fst x)) eqn:E; [|done].
  apply Qle_bool_iff in E. lra.
Qed.

Variable score : Variant → Q.

Lemma sort_desc_first_max (l : list Variant) (v : Variant) :
  first_max score l v →
  ∃ rest, sort_desc (map (fun u => (score u, u)) l) = (score v, v) :: rest.
Proof.
  intros (l1 & l2 & -> & Hlt & Hle).
  induction l1 as [|a l1 IH].
  - simpl. apply insert_desc_front. intros y Hy.
    apply sort_desc_elem in Hy. apply list_elem_of_fmap in Hy as (u & -> & Hu).
    simpl. by apply Hle.
  - destruct IH as [rest IH].
    { intros u Hu. apply Hlt. apply elem_of_cons. by right. }
    change (sort_desc (map (fun u => (score u, u)) ((a :: l1) ++ v :: l2)))
      with (insert_desc (score a, a)
              (sort_desc (map (fun u => (score u, u)) (l1 ++ v :: l2)))).
    rewrite IH, insert_desc_behind.
    + by eexists.
    + simpl. apply Hlt. apply elem_of_cons. by left.
Qed.

Lemma first_max_exists (l : list Variant) :
  l ≠ [] → ∃ v, first_max score l v.
Proof.
  induction l as [|a l IH]; [congruence|]. intros _.
  destruct l as [|b l].
  - exists a, [], []. split; [done|]. split; intros u Hu; inversion Hu.
  - destruct IH as (v & l1 & l2 & E & Hlt & Hle); [congruence|].
    destruct (Qlt_le_dec (score a) (score v)) as [Hav|Hva].
    + exists v, (a :: l1), l2. split; [by rewrite E|]. split; [|done].
      intros u Hu. apply elem_of_cons in Hu as [->|Hu]; [done|by apply Hlt].
    + exists a, [], (b :: l). split; [done|]. split.
      * intros u Hu. inversion Hu.
      * intros u Hu. rewrite E in Hu.
        apply elem_of_app in Hu as [Hu|Hu].
        -- apply Hlt in Hu. lra.
        -- apply elem_of_cons in Hu as [->|Hu]; [done|].
           apply Hle in Hu. lra.
Qed.

End StableSort.

Lemma select_first_max (w : Workflow) (ctx : gmap string Q) (v : Variant) :
  first_max (score_in w ctx) (possible_implementations w) v →
  _select_optimal_variant w ctx = Ok v.
Proof.
  intros H. apply sort_desc_first_max in H as [rest H].
  unfold _select_optimal_variant, score_in in *. by rewrite H.
Qed.

Lemma select_nonempty (w : Workflow) (ctx : gmap string Q) :
  possible_implementations w ≠ [] →
  ∃ v, _select_optimal_variant w ctx = Ok v ∧
       first_max (score_in w ctx) (possible_implementations w) v.
Proof.
  intros H. destruct (first_max_exists (score_in w ctx) _ H) as [v Hv].
  exists v. split; [by apply select_first_max|done].
Qed.

Lemma first_max_is_max (w : Workflow) (ctx : gmap string Q) (v : Variant) :
  first_max (score_in w ctx) (possible_implementations w) v →
  max_score w ctx v.
Proof.
  intros (l1 & l2 & E & Hlt & Hle). split.
  - rewrite E. apply elem_of_app. right. apply elem_of_cons. by left.
  - intros u Hu. rewrite E in Hu. apply elem_of_app in Hu as [Hu|Hu].
    + apply Hlt in Hu. lra.
    + apply elem_of_cons in Hu as [->|Hu]; [lra|by apply Hle].
Qed.

(** ** Scoring *)

Lemma prefix_refl (t : string) : String.prefix t t = true.
Proof.
  induction t as [|a t IH]; simpl; [done|].
  destruct (Ascii.ascii_dec a a); [done|congruence].
Qed.

Lemma str_in_refl (s : string) : str_in s s = true.
Proof. destruct s as [|a s]; [done|]. cbn [str_in]. by rewrite prefix_refl. Qed.

Lemma score_formula (v : Variant) (w : Weights) (i : Intent) :
  _calculate_variant_score v w i ==
  mean_score v w +
  (if bool_decide (primary_goal i = customer_communication ∧
                   str_in ux_optimized (type v) = true)
   then 0.1 else 0).
Proof.
  unfold _calculate_variant_score, mean_score.
  fold customer_communication. fold ux_optimized.
  destruct (String.eqb_spec (primary_goal i) customer_communication) as [E|E];
    destruct (str_in ux_optimized (type v)) eqn:Hin; simpl.
  - rewrite bool_decide_eq_true_2 by done. reflexivity.
  - rewrite bool_decide_eq_false_2 by (intros [_ ?]; done). lra.
  - rewrite bool_decide_eq_false_2 by (intros [? _]; done). lra.
  - rewrite bool_decide_eq_false_2 by (intros [? _]; done). lra.
Qed.

(** On the four types of the catalog the substring test and equality with
    the archetype's name agree. *)
Lemma catalog_bonus_only_ux (i : Intent) (v : Variant) :
  v ∈ _generate_implementation_variants i →
  str_in ux_optimized (type v) = true ↔ type v = ux_optimized.
Proof.
  intros Hv. unfold _generate_implementation_variants in Hv.
  repeat (apply elem_of_cons in Hv as [->|Hv]); [..|inversion Hv];
    vm_compute; split; (done || discriminate).
Qed.

(** C2, as stated, fails: a variant whose type is not the user-experience
    archetype but contains its name (["non_ux_optimized"]) gets the bonus
    too, because the source tests ["ux_optimized" in variant["type"]]. *)
Lemma score_bonus_beyond_archetype :
  type ux_lookalike ≠ ux_optimized ∧
  ¬ (_calculate_variant_score ux_lookalike target_weights
       (intent_of customer_communication)
     == spec_score ux_lookalike target_weights
          (intent_of customer_communication)).
Proof.
  split; [discriminate|]. vm_compute. discriminate.
Qed.

(** C2 (amended): for every variant, weight vector and intent the score is
    the mean of speed·time_pressure, reliability·(1 − error_tolerance) and
    resource_usage·resource_availability, plus exactly 0.1 when the intent's
    primary goal is the customer-communication category and the variant's
    type contains the name of the user-experience archetype (so in
    particular when it is that archetype), and plus nothing otherwise. *)
Theorem variant_score_bonus (v : Variant) (w : Weights) (i : Intent) :
  (primary_goal i = customer_communication →
   str_in ux_optimized (type v) = true →
   _calculate_variant_score v w i == mean_score v w + 0.1) ∧
  (primary_goal i = customer_communication →
   type v = ux_optimized →
   _calculate_variant_score v w i == mean_score v w + 0.1) ∧
  (primary_goal i ≠ customer_communication ∨
   str_in ux_optimized (type v) = false →
   _calculate_variant_score v w i == mean_score v w).
Proof.
  pose proof (score_formula v w i) as F. repeat split.
  - intros Hg Hin. rewrite F, bool_decide_eq_true_2 by done. reflexivity.
  - intros Hg Ht. rewrite F, bool_decide_eq_true_2; [reflexivity|].
    split; [done|]. rewrite Ht. apply str_in_refl.
  - intros H. rewrite F, bool_decide_eq_false_2; [lra|].
    intros [Hg Hin]. destruct H as [H|H]; congruence.
Qed.

Lemma variant_score_bonus_witness :
  _calculate_variant_score ux_variant target_weights
    (intent_of customer_communication)
  == mean_score ux_variant target_weights + 0.1
  ∧ _calculate_variant_score ux_lookalike target_weights
      (intent_of customer_communication)
    == mean_score ux_lookalike target_weights + 0.1
  ∧ _calculate_variant_score ux_variant target_weights
      (intent_of "data_preservation_and_security")
    == mean_score ux_variant target_weights.
Proof.
  split; [|split].
  - apply (proj1 (proj2 (variant_score_bonus ux_variant target_weights
                            (intent_of customer_communication))));
      reflexivity.
  - apply (proj1 (variant_score_bonus ux_lookalike target_weights
                     (intent_of customer_communication)));
      reflexivity.
  - apply (proj2 (proj2 (variant_score_bonus ux_variant target_weights
                            (intent_of "data_preservation_and_security")))).
    left. discriminate.
Defined.

(** ** Selection *)

(** C3: with the standard catalog, a customer-communication intent and a
    context whose analysis is the weight vector
    {time_pressure 0.8, resource_availability 0.6, user_expertise 0.5,
     system_load 0.4, error_tolerance 0.1},
    the selector returns the user-experience variant, whose score is
    strictly above that of every other variant of the catalog. *)
Theorem scenario_selects_ux (w : Workflow) (ctx : gmap string Q) :
  possible_implementations w = _generate_implementation_variants (intent w) →
  primary_goal (intent w) = customer_communication →
  Weights_eq (_analyze_execution_context ctx) target_weights →
  _select_optimal_variant w ctx = Ok ux_variant ∧
  ∀ u, u ∈ possible_implementations w → u ≠ ux_variant →
       score_in w ctx u < score_in w ctx ux_variant.
Proof.
  intros Hcat Hgoal (Htp & Hra & _ & _ & Het).
  assert (Hbelow : ∀ u, u ∈ possible_implementations w → u ≠ ux_variant →
                        score_in w ctx u < score_in w ctx ux_variant).
  { intros u Hu Hne. rewrite Hcat in Hu. unfold score_in.
    set (ws := _analyze_execution_context ctx) in *.
    unfold _generate_implementation_variants in Hu.
    repeat (apply elem_of_cons in Hu as [->|Hu]);
      [ | | | by destruct Hne | by inversion Hu ];
      unfold _calculate_variant_score; rewrite Hgoal; simpl in *;
      rewrite Htp, Hra, Het; reflexivity. }
  split; [|done].
  apply select_first_max. rewrite Hcat.
  exists (take 3 (_generate_implementation_variants (intent w))), [].
  split; [reflexivity|]. split.
  - intros u Hu. apply Hbelow.
    + rewrite Hcat. by apply (subseteq_take 3).
    + intros ->. simpl in Hu.
      repeat (apply elem_of_cons in Hu as [Hu|Hu]; [discriminate|]).
      inversion Hu.
  - intros u Hu. inversion Hu.
Qed.

Lemma scenario_selects_ux_witness :
  _select_optimal_variant customer_workflow scenario_context = Ok ux_variant.
Proof.
  apply (scenario_selects_ux customer_workflow scenario_context).
  - reflexivity.
  - reflexivity.
  - repeat split; reflexivity.
Defined.

(** C4, as stated, fails: with the standard catalog, an intent outside the
    customer-communication category and a context that brings every mean to
    0, all four variants tie; the selector returns ["speed_optimized"], the
    first of the catalog, although ["learning_optimized"] is smaller. *)
Lemma tie_break_not_lexicographic :
  ¬ lexicographic_tie_break backup_workflow tie_context.
Proof.
  intros H.
  assert (Hsel : ∃ v, _select_optimal_variant backup_workflow tie_context = Ok v
                      ∧ type v = "speed_optimized").
  { eexists. split; vm_compute; reflexivity. }
  destruct Hsel as (v & Hsel & Hv).
  pose (u := nth 2 (possible_implementations backup_workflow) ux_variant).
  specialize (H v Hsel u). rewrite Hv in H.
  assert (Hmax : max_score backup_workflow tie_context u).
  { split.
    - do 2 apply list_elem_of_further. apply list_elem_of_here.
    - intros x Hx. simpl in Hx.
      repeat (apply elem_of_cons in Hx as [->|Hx]); [..|inversion Hx];
        vm_compute; discriminate. }
  specialize (H Hmax). vm_compute in H. discriminate.
Qed.

(** C4 (amended): for every non-empty variant list, weight vector and
    intent, the selector returns a variant of maximal score, and when
    several variants attain that score it returns the one that comes first
    in the variant list: every variant before it scores strictly less. *)
Theorem tie_break_first_in_list (w : Workflow) (ctx : gmap string Q) :
  possible_implementations w ≠ [] →
  ∃ v, _select_optimal_variant w ctx = Ok v ∧
       max_score w ctx v ∧
       first_max (score_in w ctx) (possible_implementations w) v.
Proof.
  intros H. destruct (select_nonempty w ctx H) as (v & Hsel & Hfirst).
  exists v. split; [done|]. split; [by apply first_max_is_max|done].
Qed.

Lemma tie_break_first_in_list_witness :
  ∃ v, _select_optimal_variant backup_workflow tie_context = Ok v ∧
       max_score backup_workflow tie_context v ∧
       first_max (score_in backup_workflow tie_context)
                 (possible_implementations backup_workflow) v.
Proof.
  apply (tie_break_first_in_list backup_workflow tie_context). discriminate.
Defined.

(** ** Collapse *)

Lemma collapse_workflow_registered
    (eng : Engine) (wid : string) (w : Workflow) (ctx : gmap string Q)
    (now : Q) :
  active_workflows eng !! wid = Some w →
  possible_implementations w ≠ [] →
  ∃ v, _select_optimal_variant w ctx = Ok v ∧
       collapse_workflow wid ctx now eng =
         (Ok (collapsed_of wid w v ctx now),
          set_active_workflows
            (fun m => <[wid := update w (collapsed_of wid w v ctx now)]> m)
            eng).
Proof.
  intros Hw Hne. destruct (select_nonempty w ctx Hne) as (v & Hsel & _).
  exists v. split; [done|].
  unfold collapse_workflow, bind, get, lift, modify, ret.
  by rewrite Hw, Hsel.
Qed.

Lemma collapse_workflow_unregistered
    (eng : Engine) (wid : string) (ctx : gmap string Q) (now : Q) :
  active_workflows eng !! wid = None →
  collapse_workflow wid ctx now eng =
    (Raise (ValueError ("Workflow " +:+ wid +:+ " not found")), eng).
Proof.
  intros Hw. unfold collapse_workflow, bind, get, raise. by rewrite Hw.
Qed.

(** C5, as stated, fails.  A context with the five keys present and
    [urgency] 1.5 is turned into weights with 1.5 passed through; a context
    with [urgency] 1.5 alone gets the fallbacks for the four missing keys;
    the collapse that uses either of them succeeds. *)
Lemma invalid_context_accepted :
  (¬ valid_context out_of_range_context ∧
   _analyze_execution_context out_of_range_context =
     {| time_pressure := 1.5; resource_availability := 0.6;
        user_expertise := 0.5; system_load := 0.4;
        error_tolerance := 0.1 |} ∧
   is_Ok (fst (collapse_workflow "qwf_1" out_of_range_context 2
                 (engine_with customer_workflow))) = true ∧
   ¬ rejected (collapse_workflow "qwf_1" out_of_range_context 2)
              (engine_with customer_workflow)) ∧
  (¬ valid_context loose_context ∧
   _analyze_execution_context loose_context =
     {| time_pressure := 1.5; resource_availability := 0.8;
        user_expertise := 0.6; system_load := 0.3;
        error_tolerance := 0.7 |} ∧
   is_Ok (fst (collapse_workflow "qwf_1" loose_context 2
                 (engine_with customer_workflow))) = true ∧
   ¬ rejected (collapse_workflow "qwf_1" loose_context 2)
              (engine_with customer_workflow)).
Proof.
  split; (split; [|split; [|split]]).
  - intros [_ H]. destruct (H "urgency" 1.5 eq_refl) as [_ Hle]. lra.
  - reflexivity.
  - vm_compute. reflexivity.
  - intros [e He]. apply (f_equal (fun r => is_Ok (fst r))) in He.
    vm_compute in He. discriminate.
  - intros [H _]. destruct (H "resources") as [x Hx].
    + apply elem_of_cons. right. apply elem_of_cons. by left.
    + discriminate.
  - reflexivity.
  - vm_compute. reflexivity.
  - intros [e He]. apply (f_equal (fun r => is_Ok (fst r))) in He.
    vm_compute in He. discriminate.
Qed.

(** C5 (amended): converting an execution context into the weight vector
    does not fail when a supplied field lies outside [0,1] or a key is
    absent: the value supplied under [urgency], [resources],
    [user_skill_level], [current_load], [error_tolerance] is taken over
    unchanged as the weight, and an absent key silently gets its fallback,
    0.5, 0.8, 0.6, 0.3, 0.7 in that order, and nothing else. *)
Theorem context_weights_fallback (ctx : gmap string Q) :
  let ws := _analyze_execution_context ctx in
  ((∀ x, ctx !! "urgency" = Some x → time_pressure ws = x) ∧
   (ctx !! "urgency" = None → time_pressure ws = 0.5)) ∧
  ((∀ x, ctx !! "resources" = Some x → resource_availability ws = x) ∧
   (ctx !! "resources" = None → resource_availability ws = 0.8)) ∧
  ((∀ x, ctx !! "user_skill_level" = Some x → user_expertise ws = x) ∧
   (ctx !! "user_skill_level" = None → user_expertise ws = 0.6)) ∧
  ((∀ x, ctx !! "current_load" = Some x → system_load ws = x) ∧
   (ctx !! "current_load" = None → system_load ws = 0.3)) ∧
  ((∀ x, ctx !! "error_tolerance" = Some x → error_tolerance ws = x) ∧
   (ctx !! "error_tolerance" = None → error_tolerance ws = 0.7)).
Proof.
  simpl.
  repeat split; try (intros x H; by rewrite H); try (intros H; by rewrite H).
Qed.

Lemma context_weights_fallback_witness :
  time_pressure (_analyze_execution_context loose_context) = 1.5 ∧
  resource_availability (_analyze_execution_context loose_context) = 0.8 ∧
  user_expertise (_analyze_execution_context loose_context) = 0.6 ∧
  system_load (_analyze_execution_context loose_context) = 0.3 ∧
  error_tolerance (_analyze_execution_context loose_context) = 0.7 ∧
  error_tolerance (_analyze_execution_context out_of_range_context) = 0.1.
Proof.
  pose proof (context_weights_fallback loose_context) as H.
  pose proof (context_weights_fallback out_of_range_context) as H'.
  cbv zeta in H, H'.
  destruct H as ((Hu & _) & (_ & Hr) & (_ & Hs) & (_ & Hl) & (_ & He)).
  destruct H' as (_ & _ & _ & _ & (He' & _)).
  split; [|split; [|split; [|split; [|split]]]].
  - apply Hu. reflexivity.
  - apply Hr. reflexivity.
  - apply Hs. reflexivity.
  - apply Hl. reflexivity.
  - apply He. reflexivity.
  - apply He'. reflexivity.
Defined.

(** C1, as stated, fails: a workflow that is already COLLAPSED (selected
    variant ["speed_optimized"], collapsed at time 10) is collapsed again
    without any error; the call returns and the stored selection and
    timestamp are overwritten. *)
Lemma collapse_again_overwrites :
  let before := active_workflows collapsed_engine !! "qwf_2" in
  let run := collapse_workflow "qwf_2" careful_context 20 collapsed_engine in
  let after := active_workflows (snd run) !! "qwf_2" in
  state <$> before = Some COLLAPSED ∧
  type <$> (before ≫= selected_variant) = Some "speed_optimized" ∧
  before ≫= collapse_timestamp = Some 10 ∧
  is_Ok (fst run) = true ∧
  state <$> after = Some COLLAPSED ∧
  type <$> (after ≫= selected_variant) = Some "reliability_optimized" ∧
  after ≫= collapse_timestamp = Some 20 ∧
  ¬ rejected (collapse_workflow "qwf_2" careful_context 20) collapsed_engine.
Proof.
  cbv zeta. repeat split; try (vm_compute; reflexivity).
  intros [e He]. apply (f_equal (fun r => is_Ok (fst r))) in He.
  vm_compute in He. discriminate.
Qed.

(** C1 (amended): for every registered workflow that has already been
    collapsed (state COLLAPSED or EVOLVING) and has a non-empty variant
    list, calling collapse again does not fail: it runs the selection under
    the new context, returns the new collapsed record and overwrites the
    stored selected variant, execution plan, execution context and collapse
    timestamp, the state being COLLAPSED afterwards; the intent, the variant
    list and the creation timestamp are kept. *)
Theorem collapse_again_succeeds
    (eng : Engine) (wid : string) (w : Workflow) (ctx : gmap string Q)
    (now : Q) :
  active_workflows eng !! wid = Some w →
  state w = COLLAPSED ∨ state w = EVOLVING →
  possible_implementations w ≠ [] →
  ∃ v c eng',
    _select_optimal_variant w ctx = Ok v ∧
    collapse_workflow wid ctx now eng = (Ok c, eng') ∧
    c_selected_variant c = v ∧
    c_execution_plan c = _generate_execution_plan v (intent w) ∧
    ∃ w', active_workflows eng' !! wid = Some w' ∧
          state w' = COLLAPSED ∧
          selected_variant w' = Some v ∧
          execution_plan w' = Some (_generate_execution_plan v (intent w)) ∧
          execution_context w' = Some ctx ∧
          collapse_timestamp w' = Some now ∧
          intent w' = intent w ∧
          possible_implementations w' = possible_implementations w ∧
          creation_timestamp w' = creation_timestamp w.
Proof.
  intros Hw _ Hne.
  destruct (collapse_workflow_registered eng wid w ctx now Hw Hne)
    as (v & Hsel & Hrun).
  exists v. eexists. eexists. split; [done|]. split; [exact Hrun|].
  split; [done|]. split; [done|].
  eexists. split; [apply lookup_insert_eq|]. by repeat split.
Qed.

Lemma collapse_again_succeeds_witness :
  ∃ v c eng',
    _select_optimal_variant
      (update backup_workflow
         (collapsed_of "qwf_2" backup_workflow
            (nth 0 (possible_implementations backup_workflow) ux_variant)
            rush_context 10))
      careful_context = Ok v ∧
    collapse_workflow "qwf_2" careful_context 20 collapsed_engine
      = (Ok c, eng') ∧
    c_selected_variant c = v.
Proof.
  destruct (collapse_again_succeeds collapsed_engine "qwf_2"
              (update backup_workflow
                 (collapsed_of "qwf_2" backup_workflow
                    (nth 0 (possible_implementations backup_workflow)
                         ux_variant)
                    rush_context 10))
              careful_context 20)
    as (v & c & eng' & Hsel & Hrun & Hc & _).
  - vm_compute. reflexivity.
  - left. reflexivity.
  - discriminate.
  - exists v, c, eng'. by repeat split.
Defined.

(** ** Evolution tracking *)

Lemma suggest_mutations_run (tr : Tracker) (wid : string) :
  _suggest_mutations wid tr =
    (Ok tt,
     set_mutation_strategies
       (fun m => <[wid := suggested (default 0.5 (fitness_scores tr !! wid))]> m)
       tr).
Proof.
  unfold _suggest_mutations, bind, get, modify, suggested.
  destruct (Qlt_le_dec _ 0.7), (Qlt_le_dec _ 0.5); reflexivity.
Qed.

Lemma calculate_fitness_run
    (tr : Tracker) (wid : string) (h : list EvolutionData) :
  evolution_history tr !! wid = Some h → h ≠ [] →
  _calculate_fitness_score wid tr =
    (Ok tt,
     set_fitness_scores (fun m => <[wid := computed_fitness h]> m) tr).
Proof.
  intros Hh Hne. unfold _calculate_fitness_score, bind, get. rewrite Hh.
  destruct h; [congruence|reflexivity].
Qed.

Lemma history_append_run
    (tr : Tracker) (wid : string) (h : list EvolutionData)
    (d : EvolutionData) :
  evolution_history tr !! wid = Some h →
  history_append wid d tr =
    (Ok tt, set_evolution_history (fun m => <[wid := h ++ [d]]> m) tr).
Proof.
  intros Hh. unfold history_append, bind, get. by rewrite Hh.
Qed.

(** [track_execution] always returns, and leaves the tracker in the state
    [tracked]: the outcome appended, the fitness recomputed over the last
    ten entries, the suggestions recomputed from that fitness. *)
Lemma track_execution_run
    (tr : Tracker) (wid : string) (res : ExecutionResult) (now : Q) :
  track_execution wid res now tr =
    (Ok tt, tracked tr wid (evolution_data_of res now)).
Proof.
  set (d := evolution_data_of res now).
  assert (Hne : ∀ h : list EvolutionData, h ++ [d] ≠ []).
  { intros [|? ?]; discriminate. }
  unfold track_execution. fold d. unfold bind at 1. unfold get at 1.
  destruct (evolution_history tr !! wid) as [h|] eqn:Hh.
  - unfold bind at 1. unfold ret at 1. unfold bind at 1.
    rewrite (history_append_run tr wid h d Hh). unfold bind at 1.
    erewrite calculate_fitness_run;
      [|apply lookup_insert_eq|apply Hne].
    rewrite suggest_mutations_run. unfold tracked. rewrite Hh. simpl.
    by rewrite lookup_insert_eq.
  - unfold bind at 1. unfold modify at 1. unfold bind at 1.
    erewrite history_append_run; [|apply lookup_insert_eq].
    unfold bind at 1.
    erewrite calculate_fitness_run;
      [|apply lookup_insert_eq|apply Hne].
    rewrite suggest_mutations_run. unfold tracked. rewrite Hh. simpl.
    rewrite lookup_insert_eq.
    unfold set_mutation_strategies, set_fitness_scores,
      set_evolution_history. simpl.
    by rewrite insert_insert_eq.
Qed.

Lemma tracked_history (tr : Tracker) (wid : string) (d : EvolutionData) :
  evolution_history (tracked tr wid d) !! wid =
    Some (default [] (evolution_history tr !! wid) ++ [d]).
Proof. apply lookup_insert_eq. Qed.

Lemma tracked_fitness (tr : Tracker) (wid : string) (d : EvolutionData) :
  fitness_scores (tracked tr wid d) !! wid =
    Some (computed_fitness
            (default [] (evolution_history tr !! wid) ++ [d])).
Proof. apply lookup_insert_eq. Qed.

Lemma tracked_mutations (tr : Tracker) (wid : string) (d : EvolutionData) :
  mutation_strategies (tracked tr wid d) !! wid =
    Some (suggested
            (computed_fitness
               (default [] (evolution_history tr !! wid) ++ [d]))).
Proof. apply lookup_insert_eq. Qed.

(** ** Fitness arithmetic *)

Lemma py_len_map {A B} (f : A → B) (xs : list A) :
  py_len (map f xs) = py_len xs.
Proof. unfold py_len. by rewrite length_map. Qed.

Lemma py_sum_bounds (xs : list Q) :
  Forall in_unit xs → 0 <= py_sum xs ∧ py_sum xs <= py_len xs.
Proof.
  induction 1 as [|x xs [H0 H1] _ [IH0 IH1]].
  - split; [apply Qle_refl|]. apply py_len_nonneg.
  - rewrite py_sum_cons, py_len_cons. split; lra.
Qed.

Lemma average_bounds (xs : list Q) :
  xs ≠ [] → Forall in_unit xs → in_unit (average xs).
Proof.
  intros Hne Hxs. destruct (py_sum_bounds xs Hxs) as [H0 H1].
  pose proof (py_len_pos xs Hne) as Hpos. unfold average. split.
  - apply Qle_shift_div_l; [done|]. lra.
  - apply Qle_shift_div_r; [done|]. lra.
Qed.

Lemma py_sum_mono (xs ys : list Q) :
  Forall2 Qle xs ys → py_sum xs <= py_sum ys.
Proof.
  induction 1 as [|x y xs ys Hxy _ IH]; [apply Qle_refl|].
  rewrite !py_sum_cons. lra.
Qed.

Lemma average_mono (xs ys : list Q) :
  Forall2 Qle xs ys → average xs <= average ys.
Proof.
  intros H. unfold average, py_len. rewrite (Forall2_length _ _ _ H).
  unfold Qdiv. apply Qmult_le_compat_r; [by apply py_sum_mono|].
  apply Qinv_le_0_compat, (py_len_nonneg ys).
Qed.

Lemma fitness_of_average (recent : list EvolutionData) :
  fitness_of recent ==
  0.4 * average (map user_satisfaction recent) +
  0.3 * average (map resource_efficiency recent) +
  0.3 * average (map (fun e => Q_of_bool (success_rate e)) recent).
Proof. unfold fitness_of, average. rewrite !py_len_map. ring. Qed.

Lemma Q_of_bool_in_unit (b : bool) : in_unit (Q_of_bool b).
Proof. destruct b; split; simpl; lra. Qed.

Lemma fitness_of_bounds (recent : list EvolutionData) :
  recent ≠ [] → Forall outcome_in_range recent →
  0 <= fitness_of recent ∧ fitness_of recent <= 1.
Proof.
  intros Hne Hr. rewrite fitness_of_average.
  assert (Hmap : ∀ f : EvolutionData → Q, map f recent ≠ []).
  { intros f. destruct recent; [congruence|discriminate]. }
  destruct (average_bounds (map user_satisfaction recent)) as [A0 A1];
    [apply Hmap| |].
  { apply Forall_fmap. eapply Forall_impl; [exact Hr|]. by intros e [? _]. }
  destruct (average_bounds (map resource_efficiency recent)) as [B0 B1];
    [apply Hmap| |].
  { apply Forall_fmap. eapply Forall_impl; [exact Hr|]. by intros e [_ ?]. }
  destruct (average_bounds
              (map (fun e => Q_of_bool (success_rate e)) recent))
    as [C0 C1]; [apply Hmap| |].
  { apply Forall_fmap, Forall_forall. intros e _. apply Q_of_bool_in_unit. }
  split; lra.
Qed.

Lemma fitness_of_mono (xs ys : list EvolutionData) :
  Forall2 outcome_le xs ys → fitness_of xs <= fitness_of ys.
Proof.
  intros H. rewrite !fitness_of_average.
  assert (A : average (map user_satisfaction xs)
              <= average (map user_satisfaction ys)).
  { apply average_mono, Forall2_fmap. eapply Forall2_impl; [exact H|].
    by intros e e' (? & _ & _). }
  assert (B : average (map resource_efficiency xs)
              <= average (map resource_efficiency ys)).
  { apply average_mono, Forall2_fmap. eapply Forall2_impl; [exact H|].
    by intros e e' (_ & ? & _). }
  assert (C : average (map (fun e => Q_of_bool (success_rate e)) xs)
              <= average (map (fun e => Q_of_bool (success_rate e)) ys)).
  { apply average_mono, Forall2_fmap. eapply Forall2_impl; [exact H|].
    intros e e' (_ & _ & Hs). simpl.
    destruct (success_rate e), (success_rate e'); simpl; try lra;
      by specialize (Hs eq_refl). }
  lra.
Qed.

Lemma outcome_le_refl (e : EvolutionData) : outcome_le e e.
Proof. repeat split; try apply Qle_refl. done. Qed.

Lemma computed_fitness_mono (xs ys : list EvolutionData) :
  Forall2 outcome_le xs ys → computed_fitness xs <= computed_fitness ys.
Proof.
  intros H. unfold computed_fitness, py_last_n.
  rewrite (Forall2_length _ _ _ H). by apply fitness_of_mono, Forall2_drop.
Qed.

Lemma computed_fitness_bounds (history : list EvolutionData) :
  history ≠ [] → Forall outcome_in_range history →
  0 <= computed_fitness history ∧ computed_fitness history <= 1.
Proof.
  intros Hne Hr. apply fitness_of_bounds.
  - apply py_last_n_nonempty; [lia|done].
  - unfold py_last_n. by apply Forall_drop.
Qed.

(** ** Recording outcomes *)

(** C6: recording an outcome always returns and appends one entry to the
    workflow's history; that entry carries the clock reading and the values
    the outcome supplies (satisfaction, efficiency, success, duration, error
    count, suggestions); the stored fitness is then
    0.4·avg(user_satisfaction) + 0.3·avg(resource_efficiency) +
    0.3·avg(success_rate) over the last min(10, length) entries of the new
    history.  For the three outcomes with satisfactions 0.9, 0.8, 0.85,
    efficiencies 0.7, 0.75, 0.8 and success three times, the history holds
    these values in that order, the fitness is 0.865 and the list of
    suggested mutations is empty. *)
Theorem record_outcome_fitness
    (tr : Tracker) (wid : string) (res : ExecutionResult) (now : Q) :
  (∃ tr' d f,
     let h := default [] (evolution_history tr !! wid) ++ [d] in
     let recent := py_last_n 10 h in
     track_execution wid res now tr = (Ok tt, tr') ∧
     evolution_history tr' !! wid = Some h ∧
     (timestamp d = now ∧
      (∀ x, res_user_satisfaction res = Some x → user_satisfaction d = x) ∧
      (∀ x, res_resource_usage res = Some x → resource_efficiency d = x) ∧
      (∀ b, res_success res = Some b → success_rate d = b) ∧
      (∀ x, res_duration res = Some x → execution_time d = x) ∧
      (∀ n, res_errors res = Some n → error_count d = n) ∧
      (∀ l, res_ai_suggestions res = Some l →
            improvement_suggestions d = l)) ∧
     length recent = Nat.min 10 (length h) ∧
     (∃ older, h = older ++ recent) ∧
     fitness_scores tr' !! wid = Some f ∧
     f == 0.4 * average (map user_satisfaction recent) +
          0.3 * average (map resource_efficiency recent) +
          0.3 * average (map (fun e => Q_of_bool (success_rate e)) recent)) ∧
  (let t := snd (three_outcomes WorkflowEvolutionTracker.__init__) in
   (∃ h, evolution_history t !! "qwf_1" = Some h ∧
         map user_satisfaction h = [0.9; 0.8; 0.85] ∧
         map resource_efficiency h = [0.7; 0.75; 0.8] ∧
         map success_rate h = [true; true; true] ∧
         map timestamp h = [11; 12; 13]) ∧
   (∃ f, fitness_scores t !! "qwf_1" = Some f ∧ f == 0.865) ∧
   mutation_strategies t !! "qwf_1" = Some []).
Proof.
  split.
  - exists (tracked tr wid (evolution_data_of res now)),
      (evolution_data_of res now),
      (computed_fitness
         (default [] (evolution_history tr !! wid)
          ++ [evolution_data_of res now])).
    cbv zeta. split; [apply track_execution_run|].
    split; [apply tracked_history|].
    split.
    { split; [reflexivity|].
      repeat split; intros x Hx; simpl; by rewrite Hx. }
    split; [apply py_last_n_length|].
    split; [apply py_last_n_suffix|].
    split; [apply tracked_fitness|].
    apply fitness_of_average.
  - cbv zeta. split; [|split].
    + eexists. split; [vm_compute; reflexivity|]. by repeat split.
    + eexists. split; [vm_compute; reflexivity|]. reflexivity.
    + vm_compute. reflexivity.
Qed.

Lemma record_outcome_fitness_witness :
  ∃ tr' d,
    track_execution "qwf_1" (outcome 0.9 0.7 true) 11
      WorkflowEvolutionTracker.__init__ = (Ok tt, tr') ∧
    evolution_history tr' !! "qwf_1" = Some [d] ∧
    timestamp d = 11 ∧ user_satisfaction d = 0.9 ∧
    resource_efficiency d = 0.7 ∧ success_rate d = true.
Proof.
  destruct (record_outcome_fitness WorkflowEvolutionTracker.__init__
              "qwf_1" (outcome 0.9 0.7 true) 11)
    as [(tr' & d & f & Hrun & Hh & (Ht & Hs & He & Hb & _) & _) _].
  exists tr', d. split; [exact Hrun|]. split; [exact Hh|].
  split; [exact Ht|]. split; [by apply Hs|]. split; [by apply He|].
  by apply Hb.
Defined.

(** C7: for a non-empty history whose satisfaction and efficiency values lie
    in [0,1] (a success value is a boolean, counted as 0 or 1), the computed
    fitness lies in [0,1]; and replacing one outcome of a history by one
    whose satisfaction, efficiency and success are at least as large, the
    other outcomes being kept, never decreases the computed fitness. *)
Theorem fitness_bounded_monotone :
  (∀ history : list EvolutionData,
     history ≠ [] → Forall outcome_in_range history →
     0 <= computed_fitness history ∧ computed_fitness history <= 1) ∧
  (∀ (before after : list EvolutionData) (e e' : EvolutionData),
     outcome_le e e' →
     computed_fitness (before ++ e :: after)
     <= computed_fitness (before ++ e' :: after)).
Proof.
  split.
  - apply computed_fitness_bounds.
  - intros before after e e' Hle. apply computed_fitness_mono.
    apply Forall2_app; [|constructor; [done|]];
      apply Forall_Forall2_diag, Forall_forall; intros x _;
      apply outcome_le_refl.
Qed.

Lemma fitness_bounded_monotone_witness :
  let d1 := evolution_data_of (outcome 0.9 0.7 true) 11 in
  let d2 := evolution_data_of (outcome 0.8 0.75 false) 12 in
  let d2' := evolution_data_of (outcome 0.85 0.75 true) 12 in
  (0 <= computed_fitness [d1; d2] ∧ computed_fitness [d1; d2] <= 1) ∧
  computed_fitness ([d1] ++ d2 :: []) <= computed_fitness ([d1] ++ d2' :: []).
Proof.
  cbv zeta. destruct fitness_bounded_monotone as [Hb Hm]. split.
  - apply Hb; [discriminate|].
    repeat constructor; simpl; lra.
  - apply Hm. repeat split; simpl; lra || done.
Defined.

(** C8, as stated, fails: on an engine where nothing was ever created or
    collapsed, recording an outcome under an unknown id returns normally and
    creates a history with that one outcome. *)
Lemma unknown_workflow_recorded :
  let tr := evolution_tracker empty_engine in
  let run := track_execution "qwf_9" no_fields 5 tr in
  active_workflows empty_engine !! "qwf_9" = None ∧
  evolution_history tr !! "qwf_9" = None ∧
  is_Ok (fst run) = true ∧
  evolution_history (snd run) !! "qwf_9"
    = Some [evolution_data_of no_fields 5] ∧
  ¬ rejected (track_execution "qwf_9" no_fields 5) tr.
Proof.
  cbv zeta. repeat split; try (vm_compute; reflexivity).
  intros [e He]. rewrite track_execution_run in He. discriminate.
Qed.

(** C8 (amended): for every workflow id with no prior collapse (nothing
    registered under it, no history yet), recording an outcome does not
    fail: it creates a fresh history holding that one outcome and computes
    the fitness and the suggested mutations from it. *)
Theorem record_outcome_unknown_id
    (eng : Engine) (wid : string) (res : ExecutionResult) (now : Q) :
  active_workflows eng !! wid = None →
  evolution_history (evolution_tracker eng) !! wid = None →
  ∃ tr',
    track_execution wid res now (evolution_tracker eng) = (Ok tt, tr') ∧
    evolution_history tr' !! wid = Some [evolution_data_of res now] ∧
    fitness_scores tr' !! wid
      = Some (fitness_of [evolution_data_of res now]) ∧
    mutation_strategies tr' !! wid
      = Some (suggested (fitness_of [evolution_data_of res now])).
Proof.
  intros _ Hh. eexists. split; [apply track_execution_run|].
  rewrite tracked_history, tracked_fitness, tracked_mutations, Hh.
  by repeat split.
Qed.

Lemma record_outcome_unknown_id_witness :
  ∃ tr',
    track_execution "qwf_9" no_fields 5 (evolution_tracker empty_engine)
      = (Ok tt, tr') ∧
    evolution_history tr' !! "qwf_9" = Some [evolution_data_of no_fields 5].
Proof.
  destruct (record_outcome_unknown_id empty_engine "qwf_9" no_fields 5)
    as (tr' & Hrun & Hh & _).
  - reflexivity.
  - reflexivity.
  - exists tr'. by split.
Defined.

(** ** Mutation suggestions *)

Lemma suggested_low (f : Q) :
  f < 0.5 → suggested f = moderate_mutations ++ severe_mutations.
Proof.
  intros H. unfold suggested.
  destruct (Qlt_le_dec f 0.7), (Qlt_le_dec f 0.5); try reflexivity; lra.
Qed.

Lemma suggested_middle (f : Q) :
  0.5 <= f → f < 0.7 → suggested f = moderate_mutations.
Proof.
  intros H1 H2. unfold suggested.
  destruct (Qlt_le_dec f 0.7), (Qlt_le_dec f 0.5);
    try reflexivity; lra.
Qed.

Lemma suggested_high (f : Q) : 0.7 <= f → suggested f = [].
Proof.
  intros H. unfold suggested.
  destruct (Qlt_le_dec f 0.7), (Qlt_le_dec f 0.5); try reflexivity; lra.
Qed.

(** C9, as stated, fails in the middle band: after the outcome with
    satisfaction 0.6, efficiency 0.2 and success, the fitness is in
    [0.5, 0.7) and the suggestion list holds [optimize_execution_order],
    which is no tag of the moderate set; so the list is not exactly that
    set. *)
Lemma moderate_band_not_exactly_moderate_set :
  let tr := snd (track_execution "qwf_1" (outcome 0.6 0.2 true) 11
                   WorkflowEvolutionTracker.__init__) in
  ∃ f muts,
    fitness_scores tr !! "qwf_1" = Some f ∧ 0.5 <= f ∧ f < 0.7 ∧
    mutation_strategies tr !! "qwf_1" = Some muts ∧
    "optimize_execution_order" ∈ muts ∧
    ("optimize_execution_order" ∉ spec_moderate_set) ∧
    ¬ exactly_the_set muts spec_moderate_set.
Proof.
  cbv zeta. rewrite track_execution_run.
  eexists _, _. split; [apply tracked_fitness|].
  split; [vm_compute; discriminate|]. split; [vm_compute; reflexivity|].
  split; [apply tracked_mutations|].
  assert (Hnot : "optimize_execution_order" ∉ spec_moderate_set).
  { intros H. unfold spec_moderate_set in H.
    repeat (apply elem_of_cons in H as [H|H]; [discriminate|]).
    inversion H. }
  assert (Hin : "optimize_execution_order"
                ∈ suggested
                    (computed_fitness
                       (default []
                          (evolution_history
                             WorkflowEvolutionTracker.__init__ !! "qwf_1")
                        ++ [evolution_data_of (outcome 0.6 0.2 true) 11]))).
  { rewrite suggested_middle by (vm_compute; discriminate || reflexivity).
    apply list_elem_of_here. }
  split; [exact Hin|]. split; [exact Hnot|].
  intros H. apply Hnot, H, Hin.
Qed.

(** C9 (amended): after an outcome is recorded, with [f] the recomputed
    fitness: when [f] is below 0.5 the suggestion list holds every tag of
    the moderate set and every tag of the severe set: it is the five tags
    optimize_execution_order, add_parallel_processing, implement_caching,
    reduce_validation_overhead, improve_error_handling followed by the four
    tags complete_architecture_redesign, alternative_implementation_strategy,
    user_experience_overhaul, integration_method_change; when [f] is in
    [0.5, 0.7) it is exactly the first five, that is the moderate set and
    optimize_execution_order, and holds no tag of the severe set; when [f]
    is at or above 0.7 it is empty. *)
Theorem mutation_thresholds
    (tr : Tracker) (wid : string) (res : ExecutionResult) (now : Q) :
  ∃ tr' f muts,
    track_execution wid res now tr = (Ok tt, tr') ∧
    fitness_scores tr' !! wid = Some f ∧
    mutation_strategies tr' !! wid = Some muts ∧
    (f < 0.5 →
     muts = [ "optimize_execution_order"; "add_parallel_processing";
              "implement_caching"; "reduce_validation_overhead";
              "improve_error_handling";
              "complete_architecture_redesign";
              "alternative_implementation_strategy";
              "user_experience_overhaul"; "integration_method_change" ] ∧
     (∀ t, t ∈ spec_moderate_set → t ∈ muts) ∧
     (∀ t, t ∈ spec_severe_set → t ∈ muts)) ∧
    (0.5 <= f → f < 0.7 →
     muts = [ "optimize_execution_order"; "add_parallel_processing";
              "implement_caching"; "reduce_validation_overhead";
              "improve_error_handling" ] ∧
     (∀ t, t ∈ muts ↔
           t = "optimize_execution_order" ∨ t ∈ spec_moderate_set) ∧
     (∀ t, t ∈ spec_severe_set → t ∉ muts)) ∧
    (0.7 <= f → muts = []).
Proof.
  eexists _, _, _. split; [apply track_execution_run|].
  split; [apply tracked_fitness|]. split; [apply tracked_mutations|].
  split; [|split].
  - intros H. rewrite (suggested_low _ H). split; [reflexivity|].
    unfold spec_moderate_set, spec_severe_set.
    split; intros t Ht;
      repeat (apply elem_of_cons in Ht as [->|Ht]); [..|inversion Ht| | | |inversion Ht];
      unfold moderate_mutations, severe_mutations; simpl;
      repeat (first [apply list_elem_of_here | apply list_elem_of_further]).
  - intros H1 H2. rewrite (suggested_middle _ H1 H2).
    split; [reflexivity|]. unfold spec_moderate_set, spec_severe_set,
      moderate_mutations. split.
    + intros t. rewrite !elem_of_cons. split.
      * intros [->|H]; [by left|by right].
      * intros [->|H]; [by left|by right].
    + intros t Ht Hc.
      repeat (apply elem_of_cons in Ht as [->|Ht]); [..|inversion Ht];
        repeat (apply elem_of_cons in Hc as [Hc|Hc]; [discriminate|]);
        inversion Hc.
  - apply suggested_high.
Qed.

(** A recorded fitness of 0.45 brings all nine tags, one of 0.6 the first
    five, one of 0.87 nothing. *)
Lemma mutation_thresholds_witness :
  (∃ muts,
     mutation_strategies
       (snd (track_execution "qwf_1" (outcome 0.3 0.1 true) 11
               WorkflowEvolutionTracker.__init__)) !! "qwf_1" = Some muts ∧
     (∀ t, t ∈ spec_moderate_set → t ∈ muts) ∧
     (∀ t, t ∈ spec_severe_set → t ∈ muts)) ∧
  mutation_strategies
    (snd (track_execution "qwf_1" (outcome 0.6 0.2 true) 11
            WorkflowEvolutionTracker.__init__)) !! "qwf_1"
    = Some [ "optimize_execution_order"; "add_parallel_processing";
             "implement_caching"; "reduce_validation_overhead";
             "improve_error_handling" ] ∧
  mutation_strategies
    (snd (track_execution "qwf_1" (outcome 0.9 0.7 true) 11
            WorkflowEvolutionTracker.__init__)) !! "qwf_1"
    = Some [].
Proof.
  split; [|split].
  - destruct (mutation_thresholds WorkflowEvolutionTracker.__init__ "qwf_1"
                (outcome 0.3 0.1 true) 11)
      as (tr' & f & muts & Hrun & Hf & Hm & Hlow & _).
    rewrite Hrun. simpl. exists muts. split; [done|].
    apply Hlow. rewrite track_execution_run in Hrun.
    injection Hrun as <-. rewrite tracked_fitness in Hf.
    injection Hf as <-. reflexivity.
  - destruct (mutation_thresholds WorkflowEvolutionTracker.__init__ "qwf_1"
                (outcome 0.6 0.2 true) 11)
      as (tr' & f & muts & Hrun & Hf & Hm & _ & Hmid & _).
    rewrite Hrun. simpl. rewrite Hm. f_equal.
    rewrite track_execution_run in Hrun.
    injection Hrun as <-. rewrite tracked_fitness in Hf.
    injection Hf as <-. apply Hmid; vm_compute; discriminate || reflexivity.
  - destruct (mutation_thresholds WorkflowEvolutionTracker.__init__ "qwf_1"
                (outcome 0.9 0.7 true) 11)
      as (tr' & f & muts & Hrun & Hf & Hm & _ & _ & Hhigh).
    rewrite Hrun. simpl. rewrite Hm. f_equal.
    rewrite track_execution_run in Hrun.
    injection Hrun as <-. rewrite tracked_fitness in Hf.
    injection Hf as <-. apply Hhigh. vm_compute. discriminate.
Defined.

(** ** Defaults for absent outcome fields *)

Lemma track_many_later
    (wid : string) (later : list (ExecutionResult * Q)) (tr : Tracker) :
  later ≠ [] →
  ∃ tr',
    track_many (later_records wid later) tr = (Ok tt, tr') ∧
    evolution_history tr' !! wid
      = Some (default [] (evolution_history tr !! wid) ++ entries_of later) ∧
    fitness_scores tr' !! wid
      = Some (computed_fitness
                (default [] (evolution_history tr !! wid)
                 ++ entries_of later)).
Proof.
  revert tr. induction later as [|[res now] later IH]; [congruence|].
  intros tr _. cbn [later_records entries_of map track_many fst snd].
  unfold bind. rewrite track_execution_run.
  destruct later as [|rt later].
  - eexists. split; [reflexivity|].
    split; [apply tracked_history|apply tracked_fitness].
  - destruct (IH (tracked tr wid (evolution_data_of res now)))
      as (tr' & Hrun & Hh & Hf); [discriminate|].
    exists tr'. split; [exact Hrun|].
    rewrite tracked_history in Hh, Hf. simpl in Hh, Hf.
    rewrite <- app_assoc in Hh, Hf. by split.
Qed.

(** C10, as stated, fails in its last clause: after an empty result dict
    and ten later outcomes that all failed with satisfaction and efficiency
    0, the defaulted entry (0.8, 0.7, success) is still the first entry of
    the stored history, but it is outside the window of the last ten and
    the stored fitness is 0: the defaults have not entered that
    computation. *)
Lemma defaults_leave_the_window :
  let d := evolution_data_of no_fields 5 in
  let run :=
    track_many (("qwf_1", no_fields, 5) :: later_records "qwf_1" ten_failures)
      WorkflowEvolutionTracker.__init__ in
  is_Ok (fst run) = true ∧
  (user_satisfaction d = 0.8 ∧ resource_efficiency d = 0.7 ∧
   success_rate d = true) ∧
  evolution_history (snd run) !! "qwf_1"
    = Some (d :: entries_of ten_failures) ∧
  py_last_n 10 (d :: entries_of ten_failures) = entries_of ten_failures ∧
  (d ∉ entries_of ten_failures) ∧
  ∃ f, fitness_scores (snd run) !! "qwf_1" = Some f ∧ f == 0.
Proof.
  cbv zeta. split; [vm_compute; reflexivity|].
  split; [by repeat split|]. split; [vm_compute; reflexivity|].
  split; [reflexivity|]. split.
  - intros H. unfold ten_failures, entries_of in H. simpl in H.
    repeat (apply elem_of_cons in H as [H|H]; [discriminate|]).
    inversion H.
  - eexists. split; [vm_compute; reflexivity|]. reflexivity.
Qed.

(** C10 (amended): recording an outcome never fails on an absent field:
    the stored entry takes [true] for an absent success, 0.8 for an absent
    user_satisfaction, 0.7 for an absent resource efficiency, 0 for an
    absent duration or error count and the empty list for absent
    suggestions; that entry is appended to the stored history, where it
    stays, and it is in the window from which the fitness is computed at
    once and after each of the next nine outcomes of the workflow; from the
    tenth later outcome on the window is made of later outcomes only. *)
Theorem absent_fields_defaulted
    (tr : Tracker) (wid : string) (res : ExecutionResult) (now : Q) :
  let d := evolution_data_of res now in
  let h := default [] (evolution_history tr !! wid) ++ [d] in
  ((res_success res = None → success_rate d = true) ∧
   (res_user_satisfaction res = None → user_satisfaction d = 0.8) ∧
   (res_resource_usage res = None → resource_efficiency d = 0.7) ∧
   (res_duration res = None → execution_time d = 0) ∧
   (res_errors res = None → error_count d = 0%Z) ∧
   (res_ai_suggestions res = None → improvement_suggestions d = [])) ∧
  ∃ tr',
    track_execution wid res now tr = (Ok tt, tr') ∧
    evolution_history tr' !! wid = Some h ∧
    fitness_scores tr' !! wid = Some (fitness_of (py_last_n 10 h)) ∧
    d ∈ py_last_n 10 h ∧
    ∀ later, later ≠ [] →
      let h' := h ++ entries_of later in
      ∃ tr'',
        track_many (later_records wid later) tr' = (Ok tt, tr'') ∧
        evolution_history tr'' !! wid = Some h' ∧
        fitness_scores tr'' !! wid = Some (fitness_of (py_last_n 10 h')) ∧
        ((length later <= 9)%nat → d ∈ py_last_n 10 h') ∧
        ((10 <= length later)%nat →
         py_last_n 10 h' = py_last_n 10 (entries_of later)).
Proof.
  cbv zeta. split.
  - repeat split; intros H; simpl; by rewrite H.
  - eexists. split; [apply track_execution_run|].
    split; [apply tracked_history|]. split; [apply tracked_fitness|].
    split.
    { destruct (py_last_n_keeps 10
                  (default [] (evolution_history tr !! wid))
                  [evolution_data_of res now]) as [kept ->]; [simpl; lia|].
      apply elem_of_app. right. apply list_elem_of_here. }
    intros later Hne.
    destruct (track_many_later wid later
                (tracked tr wid (evolution_data_of res now)) Hne)
      as (tr'' & Hrun & Hh & Hf).
    rewrite tracked_history in Hh, Hf. simpl in Hh, Hf.
    exists tr''. split; [exact Hrun|]. split; [exact Hh|].
    split; [exact Hf|]. split.
    + intros Hlen. rewrite <- app_assoc.
      destruct (py_last_n_keeps 10
                  (default [] (evolution_history tr !! wid))
                  ([evolution_data_of res now] ++ entries_of later))
        as [kept ->].
      { rewrite length_app. unfold entries_of. rewrite length_map.
        simpl. lia. }
      apply elem_of_app. right. apply list_elem_of_here.
    + intros Hlen. apply py_last_n_app.
      unfold entries_of. rewrite length_map. lia.
Qed.

Lemma absent_fields_defaulted_witness :
  (success_rate (evolution_data_of no_fields 5) = true ∧
   user_satisfaction (evolution_data_of no_fields 5) = 0.8 ∧
   resource_efficiency (evolution_data_of no_fields 5) = 0.7 ∧
   execution_time (evolution_data_of no_fields 5) = 0 ∧
   error_count (evolution_data_of no_fields 5) = 0%Z ∧
   improvement_suggestions (evolution_data_of no_fields 5) = []) ∧
  ∃ tr' tr'',
    track_execution "qwf_1" no_fields 5 WorkflowEvolutionTracker.__init__
      = (Ok tt, tr') ∧
    track_many (later_records "qwf_1" ten_failures) tr' = (Ok tt, tr'') ∧
    py_last_n 10 ([evolution_data_of no_fields 5] ++ entries_of ten_failures)
      = py_last_n 10 (entries_of ten_failures) ∧
    ∃ tr3,
      track_many (later_records "qwf_1" (take 9 ten_failures)) tr'
        = (Ok tt, tr3) ∧
      evolution_data_of no_fields 5
        ∈ py_last_n 10 ([evolution_data_of no_fields 5]
                        ++ entries_of (take 9 ten_failures)).
Proof.
  destruct (absent_fields_defaulted WorkflowEvolutionTracker.__init__
              "qwf_1" no_fields 5)
    as [(H1 & H2 & H3 & H4 & H5 & H6) (tr' & Hrun & _ & _ & _ & Hlater)].
  cbv zeta in *. split.
  - split; [by apply H1|]. split; [by apply H2|]. split; [by apply H3|].
    split; [by apply H4|]. split; [by apply H5|]. by apply H6.
  - destruct (Hlater ten_failures) as (tr'' & Hrun2 & _ & _ & _ & Hout);
      [discriminate|].
    destruct (Hlater (take 9 ten_failures)) as (tr3 & Hrun3 & _ & _ & Hin & _);
      [discriminate|].
    exists tr', tr''. split; [exact Hrun|]. split; [exact Hrun2|].
    split; [apply Hout; simpl; lia|].
    exists tr3. split; [exact Hrun3|]. apply Hin. simpl. lia.
Defined.

(** * Further properties of the modelled code *)

(** ** Execution plans *)

Import ConsciousnessEngine PredictiveExecutionEngine.

(** X1: whatever the variant and the intent, the plan is the five base
    steps in their order: the overlays never add, drop or reorder a step
    and never touch its name, its type or its consciousness flag. *)
Theorem plan_skeleton (variant : Variant) (i : Intent) :
  map step (_generate_execution_plan variant i) =
    ["initialize"; "validate_inputs"; "execute_core_logic";
     "handle_results"; "notify_completion"] ∧
  map step_type (_generate_execution_plan variant i) =
    ["setup"; "validation"; "execution"; "processing"; "communication"] ∧
  map consciousness_required (_generate_execution_plan variant i) =
    [false; true; true; true; false].
Proof.
  unfold _generate_execution_plan, enhance_logging, enhance_validation,
    enhance_parallel.
  destruct (list_in "parallel_execution" (characteristics variant)),
    (list_in "comprehensive_validation" (characteristics variant)),
    (list_in "extensive_logging" (characteristics variant));
    repeat split; reflexivity.
Qed.

(** X2: the parallelism hint (enabled, four threads) is put on the
    execution step alone, and only when the variant lists
    [parallel_execution]; no other step ever carries it. *)
Theorem plan_parallel_overlay (variant : Variant) (i : Intent) :
  map (fun s => (parallelization s, thread_count s))
      (_generate_execution_plan variant i) =
    if list_in "parallel_execution" (characteristics variant)
    then [(None, None); (None, None); (Some "enabled", Some 4%Z);
          (None, None); (None, None)]
    else replicate 5 (None, None).
Proof.
  unfold _generate_execution_plan, enhance_logging, enhance_validation,
    enhance_parallel.
  destruct (list_in "parallel_execution" (characteristics variant)),
    (list_in "comprehensive_validation" (characteristics variant)),
    (list_in "extensive_logging" (characteristics variant));
    reflexivity.
Qed.

(** X3: the validation depth and the four validation layers (syntax,
    semantic, business_logic, security, in that order) are put on the
    validation step alone, and only when the variant lists
    [comprehensive_validation]. *)
Theorem plan_validation_overlay (variant : Variant) (i : Intent) :
  map (fun s => (validation_depth s, validation_layers s))
      (_generate_execution_plan variant i) =
    if list_in "comprehensive_validation" (characteristics variant)
    then [(None, None);
          (Some "comprehensive",
           Some ["syntax"; "semantic"; "business_logic"; "security"]);
          (None, None); (None, None); (None, None)]
    else replicate 5 (None, None).
Proof.
  unfold _generate_execution_plan, enhance_logging, enhance_validation,
    enhance_parallel.
  destruct (list_in "parallel_execution" (characteristics variant)),
    (list_in "comprehensive_validation" (characteristics variant)),
    (list_in "extensive_logging" (characteristics variant));
    reflexivity.
Qed.

(** X4: detailed logging with real-time monitoring is put on every one of
    the five steps when the variant lists [extensive_logging], and on none
    of them otherwise. *)
Theorem plan_logging_overlay (variant : Variant) (i : Intent) :
  map (fun s => (logging_level s, monitoring s))
      (_generate_execution_plan variant i) =
    if list_in "extensive_logging" (characteristics variant)
    then replicate 5 (Some "detailed", Some "real_time")
    else replicate 5 (None, None).
Proof.
  unfold _generate_execution_plan, enhance_logging, enhance_validation,
    enhance_parallel.
  destruct (list_in "parallel_execution" (characteristics variant)),
    (list_in "comprehensive_validation" (characteristics variant)),
    (list_in "extensive_logging" (characteristics variant));
    reflexivity.
Qed.

(** X5: a variant that lists none of the three recognised characteristics
    gets the bare base plan, whatever else it lists. *)
Theorem plan_without_overlays (variant : Variant) (i : Intent) :
  "parallel_execution" ∉ characteristics variant →
  "comprehensive_validation" ∉ characteristics variant →
  "extensive_logging" ∉ characteristics variant →
  _generate_execution_plan variant i = base_steps.
Proof.
  intros Hp Hv Hl.
  unfold _generate_execution_plan, enhance_logging, enhance_validation,
    enhance_parallel, list_in.
  rewrite !bool_decide_eq_false_2 by done. reflexivity.
Qed.

Lemma plan_without_overlays_witness :
  _generate_execution_plan ux_variant (intent_of customer_communication)
    = base_steps.
Proof.
  apply (plan_without_overlays ux_variant (intent_of customer_communication));
    intros H; repeat (apply elem_of_cons in H as [H|H]; [discriminate|]);
    inversion H.
Defined.

(** X6: the three overlays act on separate keys: applied to any step, in
    any order, they give the same step. *)
Theorem overlays_commute (variant : Variant) (s : Step) :
  enhance_validation variant (enhance_parallel variant s)
    = enhance_parallel variant (enhance_validation variant s) ∧
  enhance_logging variant (enhance_parallel variant s)
    = enhance_parallel variant (enhance_logging variant s) ∧
  enhance_logging variant (enhance_validation variant s)
    = enhance_validation variant (enhance_logging variant s).
Proof.
  unfold enhance_logging, enhance_validation, enhance_parallel.
  destruct (list_in "parallel_execution" (characteristics variant)),
    (list_in "comprehensive_validation" (characteristics variant)),
    (list_in "extensive_logging" (characteristics variant));
    destruct (String.eqb (step_type s) "execution") eqn:E1;
    destruct (String.eqb (step_type s) "validation") eqn:E2;
    simpl; rewrite ?E1, ?E2; repeat split; reflexivity.
Qed.

(** ** The ranking behind the selection *)

Lemma insert_desc_perm (x : Q * Variant) (l : list (Q * Variant)) :
  insert_desc x l ≡ₚ x :: l.
Proof.
  induction l as [|y l IH]; simpl; [done|].
  destruct (Qle_bool (fst y) (fst x)); [done|].
  rewrite IH. apply Permutation_swap.
Qed.

Lemma insert_desc_sorted (x : Q * Variant) (l : list (Q * Variant)) :
  StronglySorted score_ge l → StronglySorted score_ge (insert_desc x l).
Proof.
  induction 1 as [|y l Hs IH Hy]; simpl.
  - repeat constructor.
  - destruct (Qle_bool (fst y) (fst x)) eqn:E.
    + apply Qle_bool_iff in E. constructor; [by constructor|].
      constructor; [done|].
      eapply Forall_impl; [exact Hy|]. unfold score_ge. intros z Hz. lra.
    + constructor; [done|].
      assert (Hlt : fst x < fst y).
      { destruct (Qlt_le_dec (fst x) (fst y)) as [?|Hle]; [done|].
        apply Qle_bool_iff in Hle. congruence. }
      rewrite insert_desc_perm. constructor; [|done].
      unfold score_ge. lra.
Qed.

(** X7: the ranking the selector builds holds exactly the scored variants
    it was given (none lost, none duplicated), arranged by non-increasing
    score. *)
Theorem ranking_sorted_permutation (l : list (Q * Variant)) :
  sort_desc l ≡ₚ l ∧ StronglySorted score_ge (sort_desc l).
Proof.
  induction l as [|x l [IHp IHs]]; simpl.
  - split; [done|constructor].
  - split.
    + rewrite insert_desc_perm. by constructor.
    + by apply insert_desc_sorted.
Qed.

Lemma select_run (w : Workflow) (ctx : gmap string Q) :
  _select_optimal_variant w ctx =
    match possible_implementations w with
    | [] => Raise IndexError
    | _ :: _ => _select_optimal_variant w ctx
    end.
Proof.
  unfold _select_optimal_variant.
  destruct (possible_implementations w); reflexivity.
Qed.

Lemma select_empty (w : Workflow) (ctx : gmap string Q) :
  possible_implementations w = [] →
  _select_optimal_variant w ctx = Raise IndexError.
Proof. intros H. rewrite select_run, H. reflexivity. Qed.

Lemma select_member (w : Workflow) (ctx : gmap string Q) (v : Variant) :
  _select_optimal_variant w ctx = Ok v → v ∈ possible_implementations w.
Proof.
  intros Hv. unfold _select_optimal_variant in Hv.
  destruct (sort_desc _) as [|[q u] rest] eqn:E; [discriminate|].
  injection Hv as ->.
  assert (Hin : (q, v) ∈ sort_desc
            (map (fun variant =>
                    (_calculate_variant_score variant
                       (_analyze_execution_context ctx) (intent w),
                     variant))
                 (possible_implementations w))).
  { rewrite E. apply list_elem_of_here. }
  apply sort_desc_elem, list_elem_of_fmap in Hin as (u & Hu & Hmem).
  by injection Hu as _ ->.
Qed.

(** X8: with an empty variant list the selector raises [IndexError];
    whenever it returns a variant, that variant is one of the variants of
    the workflow it was given. *)
Theorem select_outcome (w : Workflow) (ctx : gmap string Q) :
  (possible_implementations w = [] →
   _select_optimal_variant w ctx = Raise IndexError) ∧
  (∀ v, _select_optimal_variant w ctx = Ok v →
        v ∈ possible_implementations w).
Proof.
  split.
  - apply select_empty.
  - intros v. apply select_member.
Qed.

Lemma select_outcome_witness :
  _select_optimal_variant bare_workflow scenario_context = Raise IndexError ∧
  ux_variant ∈ possible_implementations customer_workflow.
Proof.
  split.
  - apply (proj1 (select_outcome bare_workflow scenario_context)).
    reflexivity.
  - apply (proj2 (select_outcome customer_workflow scenario_context)).
    vm_compute. reflexivity.
Defined.

(** X9: the selection reads three keys of the context only: two contexts
    that agree on [urgency], [resources] and [error_tolerance] select the
    same variant, whatever they hold under [user_skill_level],
    [current_load] or any other key. *)
Theorem select_reads_three_keys (w : Workflow) (ctx1 ctx2 : gmap string Q) :
  (∀ k, k ∈ scoring_keys → ctx1 !! k = ctx2 !! k) →
  _select_optimal_variant w ctx1 = _select_optimal_variant w ctx2.
Proof.
  intros H.
  assert (Hu : ctx1 !! "urgency" = ctx2 !! "urgency").
  { apply H. apply list_elem_of_here. }
  assert (Hr : ctx1 !! "resources" = ctx2 !! "resources").
  { apply H. apply list_elem_of_further, list_elem_of_here. }
  assert (He : ctx1 !! "error_tolerance" = ctx2 !! "error_tolerance").
  { apply H. do 2 apply list_elem_of_further. apply list_elem_of_here. }
  unfold _select_optimal_variant.
  replace (map _ (possible_implementations w)) with
    (map (fun variant =>
            (_calculate_variant_score variant
               (_analyze_execution_context ctx2) (intent w), variant))
         (possible_implementations w)); [done|].
  apply map_ext. intros v. f_equal.
  unfold _calculate_variant_score, _analyze_execution_context. simpl.
  by rewrite Hu, Hr, He.
Qed.

Lemma select_reads_three_keys_witness :
  _select_optimal_variant backup_workflow (context_of 1 1 0.5 0.3 1)
  = _select_optimal_variant backup_workflow (context_of 1 1 0 1 1).
Proof.
  apply (select_reads_three_keys backup_workflow). intros k Hk.
  repeat (apply elem_of_cons in Hk as [->|Hk]); [..|inversion Hk];
    reflexivity.
Defined.

(** ** Scores *)

Lemma mean_score_thirds (v : Variant) (w : Weights) :
  mean_score v w ==
  (speed (trade_offs v) * time_pressure w +
   reliability (trade_offs v) * (1 - error_tolerance w) +
   resource_usage (trade_offs v) * resource_availability w) * (1 # 3).
Proof. unfold mean_score, Qdiv. reflexivity. Qed.

Lemma product_in_unit (a b : Q) : in_unit a → in_unit b → in_unit (a * b).
Proof.
  intros [Ha0 Ha1] [Hb0 Hb1]. split.
  - by apply Qmult_le_0_compat.
  - nra.
Qed.

(** X10: when the variant's three trade-offs and the three weights the
    score reads lie in [0,1], the score lies in [0, 1.1]: the mean lies in
    [0,1] and the bonus adds at most 0.1. *)
Theorem score_bounds (v : Variant) (w : Weights) (i : Intent) :
  trade_offs_in_unit v → scoring_weights_in_unit w →
  0 <= _calculate_variant_score v w i ∧
  _calculate_variant_score v w i <= 1.1.
Proof.
  intros (Hs & Hr & Hu) (Ht & Ha & [He0 He1]).
  destruct (product_in_unit _ _ Hs Ht) as [A0 A1].
  destruct (product_in_unit (reliability (trade_offs v))
              (1 - error_tolerance w) Hr) as [B0 B1]; [split; lra|].
  destruct (product_in_unit _ _ Hu Ha) as [C0 C1].
  rewrite score_formula, mean_score_thirds.
  destruct (bool_decide _); split; lra.
Qed.

Lemma score_bounds_witness :
  0 <= _calculate_variant_score ux_variant target_weights
         (intent_of customer_communication) ∧
  _calculate_variant_score ux_variant target_weights
    (intent_of customer_communication) <= 1.1.
Proof.
  apply (score_bounds ux_variant target_weights
           (intent_of customer_communication));
    repeat split; simpl; lra.
Defined.

(** X11: for a workflow carrying the standard catalog and a
    customer-communication intent, the context cannot change the outcome:
    whenever the three weights the score reads lie in [0,1], the selector
    returns the user-experience variant. *)
Theorem customer_intent_always_ux (w : Workflow) (ctx : gmap string Q) :
  possible_implementations w = _generate_implementation_variants (intent w) →
  primary_goal (intent w) = customer_communication →
  scoring_weights_in_unit (_analyze_execution_context ctx) →
  _select_optimal_variant w ctx = Ok ux_variant.
Proof.
  intros Hcat Hgoal Hw.
  unfold scoring_weights_in_unit, in_unit in Hw. simpl in Hw.
  destruct Hw as ([T0 T1] & [A0 A1] & [E0 E1]).
  apply select_first_max. rewrite Hcat.
  exists (take 3 (_generate_implementation_variants (intent w))), [].
  split; [reflexivity|]. split; [|intros u Hu; inversion Hu].
  intros u Hu. simpl in Hu. unfold score_in.
  repeat (apply elem_of_cons in Hu as [->|Hu]); [..|inversion Hu];
    unfold _calculate_variant_score; rewrite Hgoal; simpl;
    unfold Qdiv; change (/ 3) with (1 # 3); lra.
Qed.

Lemma customer_intent_always_ux_witness :
  _select_optimal_variant customer_workflow careful_context = Ok ux_variant.
Proof.
  apply (customer_intent_always_ux customer_workflow careful_context).
  - reflexivity.
  - reflexivity.
  - repeat split; vm_compute; discriminate.
Defined.

(** ** Collapse: failures, frame, invariants *)

Lemma collapse_workflow_run
    (eng : Engine) (wid : string) (w : Workflow) (ctx : gmap string Q)
    (now : Q) :
  active_workflows eng !! wid = Some w →
  collapse_workflow wid ctx now eng =
    match _select_optimal_variant w ctx with
    | Ok v =>
        (Ok (collapsed_of wid w v ctx now),
         set_active_workflows
           (fun m => <[wid := update w (collapsed_of wid w v ctx now)]> m)
           eng)
    | Raise e => (Raise e, eng)
    end.
Proof.
  intros Hw. unfold collapse_workflow, bind, get, lift, modify, ret.
  rewrite Hw. by destruct (_select_optimal_variant w ctx).
Qed.

(** X12: collapse raises [ValueError], naming the id, when the id is not
    registered, and [IndexError] when the registered workflow has an empty
    variant list; in both cases the engine is left exactly as it was. *)
Theorem collapse_failures
    (eng : Engine) (wid : string) (ctx : gmap string Q) (now : Q) :
  (active_workflows eng !! wid = None →
   collapse_workflow wid ctx now eng =
     (Raise (ValueError ("Workflow " +:+ wid +:+ " not found")), eng)) ∧
  (∀ w, active_workflows eng !! wid = Some w →
        possible_implementations w = [] →
        collapse_workflow wid ctx now eng = (Raise IndexError, eng)).
Proof.
  split.
  - apply collapse_workflow_unregistered.
  - intros w Hw Hnil. rewrite (collapse_workflow_run _ _ _ _ _ Hw).
    by rewrite (select_empty w ctx Hnil).
Qed.

Lemma collapse_failures_witness :
  collapse_workflow "qwf_9" scenario_context 3 empty_engine =
    (Raise (ValueError "Workflow qwf_9 not found"), empty_engine) ∧
  collapse_workflow "qwf_0" scenario_context 3 (engine_with bare_workflow) =
    (Raise IndexError, engine_with bare_workflow).
Proof.
  split.
  - apply (proj1 (collapse_failures empty_engine "qwf_9" scenario_context 3)).
    reflexivity.
  - apply (proj2 (collapse_failures (engine_with bare_workflow)
                    "qwf_0" scenario_context 3) bare_workflow);
      reflexivity.
Defined.

(** X13: a collapse of one id, successful or not, leaves every other
    registered workflow and the engine's evolution tracker untouched. *)
Theorem collapse_frame
    (eng : Engine) (wid other : string) (ctx : gmap string Q) (now : Q) :
  other ≠ wid →
  active_workflows (snd (collapse_workflow wid ctx now eng)) !! other
    = active_workflows eng !! other ∧
  evolution_tracker (snd (collapse_workflow wid ctx now eng))
    = evolution_tracker eng.
Proof.
  intros Hne. destruct (active_workflows eng !! wid) as [w|] eqn:Hw.
  - rewrite (collapse_workflow_run _ _ _ _ _ Hw).
    destruct (_select_optimal_variant w ctx); simpl; [|done].
    split; [|done]. by apply lookup_insert_ne.
  - by rewrite collapse_workflow_unregistered.
Qed.

Lemma collapse_frame_witness :
  active_workflows
    (snd (collapse_workflow "qwf_1" scenario_context 3
            (engine_with customer_workflow))) !! "qwf_2"
    = active_workflows (engine_with customer_workflow) !! "qwf_2" ∧
  evolution_tracker
    (snd (collapse_workflow "qwf_1" scenario_context 3
            (engine_with customer_workflow)))
    = evolution_tracker (engine_with customer_workflow).
Proof.
  apply (collapse_frame (engine_with customer_workflow) "qwf_1" "qwf_2").
  discriminate.
Defined.

(** X14: after a successful collapse the workflow stored under the id
    carries that id, is COLLAPSED, and holds as its selection the returned
    variant, which is one of its own variants, together with the plan
    generated for it; and a registry whose keys are the ids of its
    workflows, or whose workflows all hold a selection taken from their own
    variants, stays so. *)
Theorem collapse_keeps_invariants
    (eng eng' : Engine) (wid : string) (ctx : gmap string Q) (now : Q)
    (c : Collapsed) :
  collapse_workflow wid ctx now eng = (Ok c, eng') →
  (∃ w', active_workflows eng' !! wid = Some w' ∧
         id w' = wid ∧ state w' = COLLAPSED ∧
         selected_variant w' = Some (c_selected_variant c) ∧
         c_selected_variant c ∈ possible_implementations w' ∧
         selection_sound w') ∧
  (keyed_by_id eng → keyed_by_id eng') ∧
  ((∀ k w, active_workflows eng !! k = Some w → selection_sound w) →
   ∀ k w, active_workflows eng' !! k = Some w → selection_sound w).
Proof.
  intros Hrun. destruct (active_workflows eng !! wid) as [w|] eqn:Hw;
    [|by rewrite collapse_workflow_unregistered in Hrun].
  rewrite (collapse_workflow_run _ _ _ _ _ Hw) in Hrun.
  destruct (_select_optimal_variant w ctx) as [v|] eqn:Hsel; [|discriminate].
  injection Hrun as <- <-.
  pose proof (select_member w ctx v Hsel) as Hmem.
  assert (Hsound : selection_sound
                     (update w (collapsed_of wid w v ctx now))).
  { intros v' Hv'. simpl in Hv'. injection Hv' as <-. by split. }
  split; [|split].
  - eexists. split; [apply lookup_insert_eq|].
    split; [done|]. split; [done|]. split; [done|].
    split; [exact Hmem|exact Hsound].
  - intros Hk k w' Hl. simpl in Hl.
    destruct (decide (wid = k)) as [->|Hne].
    + rewrite lookup_insert_eq in Hl. by injection Hl as <-.
    + rewrite lookup_insert_ne in Hl by done. by apply Hk.
  - intros Hs k w' Hl. simpl in Hl.
    destruct (decide (wid = k)) as [->|Hne].
    + rewrite lookup_insert_eq in Hl. by injection Hl as <-.
    + rewrite lookup_insert_ne in Hl by done. by eapply Hs.
Qed.

Lemma collapse_keeps_invariants_witness :
  ∃ w', active_workflows
          (snd (collapse_workflow "qwf_1" scenario_context 3
                  (engine_with customer_workflow))) !! "qwf_1" = Some w' ∧
        id w' = "qwf_1" ∧ state w' = COLLAPSED ∧ selection_sound w'.
Proof.
  destruct (collapse_keeps_invariants
              (engine_with customer_workflow)
              (snd (collapse_workflow "qwf_1" scenario_context 3
                      (engine_with customer_workflow)))
              "qwf_1" scenario_context 3
              (collapsed_of "qwf_1" customer_workflow ux_variant
                 scenario_context 3))
    as ((w' & Hl & Hid & Hst & _ & _ & Hs) & _).
  - vm_compute. reflexivity.
  - exists w'. split; [exact Hl|]. split; [exact Hid|].
    split; [exact Hst|exact Hs].
Defined.

(** X15: collapsing again with the same context and the same clock reading
    changes nothing: the second call returns the same record and leaves the
    engine as the first call left it. *)
Theorem collapse_idempotent
    (eng eng1 : Engine) (wid : string) (ctx : gmap string Q) (now : Q)
    (c : Collapsed) :
  collapse_workflow wid ctx now eng = (Ok c, eng1) →
  collapse_workflow wid ctx now eng1 = (Ok c, eng1).
Proof.
  intros Hrun. destruct (active_workflows eng !! wid) as [w|] eqn:Hw;
    [|by rewrite collapse_workflow_unregistered in Hrun].
  rewrite (collapse_workflow_run _ _ _ _ _ Hw) in Hrun.
  destruct (_select_optimal_variant w ctx) as [v|] eqn:Hsel; [|discriminate].
  injection Hrun as <- <-.
  set (w1 := update w (collapsed_of wid w v ctx now)).
  assert (Hsel1 : _select_optimal_variant w1 ctx = Ok v) by exact Hsel.
  erewrite collapse_workflow_run; [|apply lookup_insert_eq].
  fold w1. rewrite Hsel1. f_equal.
  unfold set_active_workflows. simpl. f_equal.
  by rewrite insert_insert_eq.
Qed.

Lemma collapse_idempotent_witness :
  collapse_workflow "qwf_2" rush_context 10 collapsed_engine
  = (Ok (collapsed_of "qwf_2" backup_workflow
           (nth 0 (possible_implementations backup_workflow) ux_variant)
           rush_context 10),
     collapsed_engine).
Proof.
  apply (collapse_idempotent (engine_with backup_workflow)).
  vm_compute. reflexivity.
Defined.

(** ** The tracker: frame, invariant, window *)

(** X16: recording an outcome for one id leaves the history, the fitness
    and the suggestions of every other id untouched. *)
Theorem track_execution_frame
    (tr : Tracker) (wid other : string) (res : ExecutionResult) (now : Q) :
  other ≠ wid →
  let tr' := snd (track_execution wid res now tr) in
  evolution_history tr' !! other = evolution_history tr !! other ∧
  fitness_scores tr' !! other = fitness_scores tr !! other ∧
  mutation_strategies tr' !! other = mutation_strategies tr !! other.
Proof.
  intros Hne. cbv zeta. rewrite track_execution_run. simpl.
  by rewrite !lookup_insert_ne.
Qed.

Lemma track_execution_frame_witness :
  let tr := snd (three_outcomes WorkflowEvolutionTracker.__init__) in
  let tr' := snd (track_execution "qwf_2" no_fields 20 tr) in
  evolution_history tr' !! "qwf_1" = evolution_history tr !! "qwf_1" ∧
  fitness_scores tr' !! "qwf_1" = fitness_scores tr !! "qwf_1" ∧
  mutation_strategies tr' !! "qwf_1" = mutation_strategies tr !! "qwf_1".
Proof.
  cbv zeta.
  apply (track_execution_frame
           (snd (three_outcomes WorkflowEvolutionTracker.__init__))
           "qwf_2" "qwf_1" no_fields 20).
  discriminate.
Defined.

Lemma tracked_consistent (tr : Tracker) (wid : string) (d : EvolutionData) :
  consistent tr → consistent (tracked tr wid d).
Proof.
  intros Hc k. destruct (decide (wid = k)) as [<-|Hne].
  - rewrite tracked_history, tracked_fitness, tracked_mutations.
    split; [|done]. by destruct (default [] _).
  - unfold tracked. simpl. rewrite !lookup_insert_ne by done. apply Hc.
Qed.

Lemma track_many_run
    (calls : list (string * ExecutionResult * Q)) (tr : Tracker) :
  consistent tr →
  ∃ tr', track_many calls tr = (Ok tt, tr') ∧ consistent tr'.
Proof.
  revert tr. induction calls as [|[[wid res] now] rest IH]; intros tr Hc.
  - by exists tr.
  - cbn [track_many]. unfold bind. rewrite track_execution_run.
    apply IH. by apply tracked_consistent.
Qed.

(** X17: after any series of [track_execution] calls on a new tracker
    that have all returned, in whatever order and for whatever ids, the
    three registries are in step: an id has a history exactly when it has a
    fitness and a suggestion list, that history is not empty, and the stored
    fitness and suggestions are the ones computed from the stored
    history. *)
Theorem tracker_registries_in_step
    (calls : list (string * ExecutionResult * Q)) (tr' : Tracker) :
  track_many calls WorkflowEvolutionTracker.__init__ = (Ok tt, tr') →
  consistent tr'.
Proof.
  intros Hrun.
  destruct (track_many_run calls WorkflowEvolutionTracker.__init__)
    as (tr'' & Hrun' & Hc).
  - intros k. unfold WorkflowEvolutionTracker.__init__. simpl.
    by rewrite !lookup_empty.
  - rewrite Hrun in Hrun'. by injection Hrun' as ->.
Qed.

Lemma tracker_registries_in_step_witness :
  consistent (snd (three_outcomes WorkflowEvolutionTracker.__init__)).
Proof.
  apply (tracker_registries_in_step
           [("qwf_1", outcome 0.9 0.7 true, 11);
            ("qwf_1", outcome 0.8 0.75 true, 12);
            ("qwf_1", outcome 0.85 0.8 true, 13)]).
  vm_compute. reflexivity.
Defined.

(** X18: the fitness forgets: once nine or more outcomes are shared by two
    histories as their most recent entries, recording the same new outcome
    gives the same fitness and the same suggestions, whatever the older
    entries were. *)
Theorem fitness_forgets_old_outcomes
    (tr1 tr2 : Tracker) (wid : string)
    (older1 older2 recent : list EvolutionData)
    (res : ExecutionResult) (now : Q) :
  evolution_history tr1 !! wid = Some (older1 ++ recent) →
  evolution_history tr2 !! wid = Some (older2 ++ recent) →
  (9 <= length recent)%nat →
  fitness_scores (snd (track_execution wid res now tr1)) !! wid
    = fitness_scores (snd (track_execution wid res now tr2)) !! wid ∧
  mutation_strategies (snd (track_execution wid res now tr1)) !! wid
    = mutation_strategies (snd (track_execution wid res now tr2)) !! wid.
Proof.
  intros H1 H2 Hlen. rewrite !track_execution_run. simpl.
  rewrite !lookup_insert_eq, H1, H2. simpl.
  assert (E : ∀ older,
            computed_fitness ((older ++ recent) ++ [evolution_data_of res now])
            = computed_fitness (recent ++ [evolution_data_of res now])).
  { intros older. unfold computed_fitness. rewrite <- app_assoc.
    rewrite py_last_n_app; [done|]. rewrite length_app. simpl. lia. }
  by rewrite !E.
Qed.

Lemma fitness_forgets_old_outcomes_witness :
  let d := evolution_data_of (outcome 0.9 0.7 true) 1 in
  let bad := evolution_data_of (outcome 0 0 false) 0 in
  let tr1 :=
    {| evolution_history := {["qwf_1" := [bad; bad] ++ replicate 9 d]};
       fitness_scores := ∅; mutation_strategies := ∅ |} in
  let tr2 :=
    {| evolution_history := {["qwf_1" := [] ++ replicate 9 d]};
       fitness_scores := ∅; mutation_strategies := ∅ |} in
  fitness_scores (snd (track_execution "qwf_1" no_fields 2 tr1)) !! "qwf_1"
    = fitness_scores (snd (track_execution "qwf_1" no_fields 2 tr2))
        !! "qwf_1".
Proof.
  cbv zeta.
  apply (fitness_forgets_old_outcomes _ _ "qwf_1"
           [evolution_data_of (outcome 0 0 false) 0;
            evolution_data_of (outcome 0 0 false) 0]
           []
           (replicate 9 (evolution_data_of (outcome 0.9 0.7 true) 1))).
  - reflexivity.
  - reflexivity.
  - simpl. lia.
Defined.

(** X19: on an id the tracker has never seen, the two helpers differ:
    [_calculate_fitness_score] raises [KeyError] and changes nothing, while
    [_suggest_mutations] succeeds, takes the fallback fitness 0.5 and stores
    exactly the moderate list (0.5 is below 0.7 but not below 0.5); and on
    an empty history [_calculate_fitness_score] returns without storing a
    fitness. *)
Theorem helpers_on_unknown_id (tr : Tracker) (wid : string) :
  (evolution_history tr !! wid = None →
   _calculate_fitness_score wid tr = (Raise (KeyError wid), tr)) ∧
  (evolution_history tr !! wid = Some [] →
   _calculate_fitness_score wid tr = (Ok tt, tr)) ∧
  (fitness_scores tr !! wid = None →
   ∃ tr', _suggest_mutations wid tr = (Ok tt, tr') ∧
          mutation_strategies tr' !! wid = Some moderate_mutations ∧
          evolution_history tr' = evolution_history tr ∧
          fitness_scores tr' = fitness_scores tr).
Proof.
  split; [|split].
  - intros H. unfold _calculate_fitness_score, bind, get, raise.
    by rewrite H.
  - intros H. unfold _calculate_fitness_score, bind, get, ret.
    by rewrite H.
  - intros H. eexists. split; [apply suggest_mutations_run|].
    rewrite H. simpl. by rewrite lookup_insert_eq.
Qed.

Lemma helpers_on_unknown_id_witness :
  _calculate_fitness_score "qwf_9" WorkflowEvolutionTracker.__init__
    = (Raise (KeyError "qwf_9"), WorkflowEvolutionTracker.__init__) ∧
  _calculate_fitness_score "qwf_9"
    {| evolution_history := {["qwf_9" := []]};
       fitness_scores := ∅; mutation_strategies := ∅ |}
    = (Ok tt,
       {| evolution_history := {["qwf_9" := []]};
          fitness_scores := ∅; mutation_strategies := ∅ |}) ∧
  ∃ tr', _suggest_mutations "qwf_9" WorkflowEvolutionTracker.__init__
           = (Ok tt, tr') ∧
         mutation_strategies tr' !! "qwf_9" = Some moderate_mutations.
Proof.
  split; [|split].
  - apply (proj1 (helpers_on_unknown_id
                    WorkflowEvolutionTracker.__init__ "qwf_9")).
    reflexivity.
  - apply (proj1 (proj2 (helpers_on_unknown_id
             {| evolution_history := {["qwf_9" := []]};
                fitness_scores := ∅; mutation_strategies := ∅ |} "qwf_9"))).
    reflexivity.
  - destruct (proj2 (proj2 (helpers_on_unknown_id
                WorkflowEvolutionTracker.__init__ "qwf_9")))
      as (tr' & Hrun & Hm & _); [reflexivity|].
    exists tr'. by split.
Defined.

(** ** Suggestions and steady histories *)

(** X20: a better fitness never brings more suggestions: of two stored
    fitness values, the list suggested for the larger is an initial part of
    the list suggested for the smaller. *)
Theorem suggestions_shrink_with_fitness
    (tr1 tr2 : Tracker) (wid : string) (f1 f2 : Q) :
  fitness_scores tr1 !! wid = Some f1 →
  fitness_scores tr2 !! wid = Some f2 →
  f1 <= f2 →
  ∃ m1 m2,
    mutation_strategies (snd (_suggest_mutations wid tr1)) !! wid = Some m1 ∧
    mutation_strategies (snd (_suggest_mutations wid tr2)) !! wid = Some m2 ∧
    m2 `prefix_of` m1.
Proof.
  intros H1 H2 Hle. rewrite !suggest_mutations_run. simpl.
  rewrite !lookup_insert_eq, H1, H2. simpl.
  eexists _, _. split; [done|]. split; [done|]. unfold suggested.
  destruct (Qlt_le_dec f1 0.7), (Qlt_le_dec f1 0.5),
    (Qlt_le_dec f2 0.7), (Qlt_le_dec f2 0.5); try lra;
    try (by eexists); try apply prefix_nil.
Qed.

Lemma suggestions_shrink_with_fitness_witness :
  ∃ m1 m2,
    mutation_strategies
      (snd (_suggest_mutations "qwf_1"
              {| evolution_history := ∅;
                 fitness_scores := {["qwf_1" := 0.45]};
                 mutation_strategies := ∅ |})) !! "qwf_1" = Some m1 ∧
    mutation_strategies
      (snd (_suggest_mutations "qwf_1"
              {| evolution_history := ∅;
                 fitness_scores := {["qwf_1" := 0.6]};
                 mutation_strategies := ∅ |})) !! "qwf_1" = Some m2 ∧
    m2 `prefix_of` m1.
Proof.
  apply (suggestions_shrink_with_fitness _ _ "qwf_1" 0.45 0.6).
  - reflexivity.
  - reflexivity.
  - vm_compute. discriminate.
Defined.

Lemma py_sum_steady (s : Q) (xs : list Q) :
  Forall (fun x => x == s) xs → py_sum xs == s * py_len xs.
Proof.
  induction 1 as [|x xs Hx _ IH].
  - rewrite py_sum_nil. unfold py_len. simpl. ring.
  - rewrite py_sum_cons, py_len_cons, IH, Hx. ring.
Qed.

Lemma average_steady (s : Q) (xs : list Q) :
  xs ≠ [] → Forall (fun x => x == s) xs → average xs == s.
Proof.
  intros Hne Hxs. unfold average. rewrite (py_sum_steady s xs Hxs).
  apply Qdiv_mult_l. pose proof (py_len_pos xs Hne). lra.
Qed.

Lemma fitness_of_steady
    (s e : Q) (b : bool) (recent : list EvolutionData) :
  recent ≠ [] → Forall (steady s e b) recent →
  fitness_of recent == 0.4 * s + 0.3 * e + 0.3 * Q_of_bool b.
Proof.
  intros Hne Hs.
  assert (Hmap : ∀ f : EvolutionData → Q, map f recent ≠ []).
  { intros f. destruct recent; [congruence|discriminate]. }
  rewrite fitness_of_average.
  rewrite (average_steady s), (average_steady e),
    (average_steady (Q_of_bool b)); try apply Hmap; [reflexivity|..];
    apply Forall_fmap; (eapply Forall_impl; [exact Hs|]);
    intros d (H1 & H2 & H3); simpl; [by rewrite H3|done|done].
Qed.

(** X21: when every outcome of a non-empty history has the same
    satisfaction [s], efficiency [e] and success [b], the computed fitness
    is 0.4·s + 0.3·e + 0.3·b, however long the history is. *)
Theorem steady_history_fitness
    (s e : Q) (b : bool) (history : list EvolutionData) :
  history ≠ [] → Forall (steady s e b) history →
  computed_fitness history == 0.4 * s + 0.3 * e + 0.3 * Q_of_bool b.
Proof.
  intros Hne Hs. unfold computed_fitness. apply fitness_of_steady.
  - apply py_last_n_nonempty; [lia|done].
  - unfold py_last_n. by apply Forall_drop.
Qed.

Lemma steady_history_fitness_witness :
  computed_fitness (replicate 12 (evolution_data_of no_fields 1))
  == 0.4 * 0.8 + 0.3 * 0.7 + 0.3 * Q_of_bool true.
Proof.
  apply (steady_history_fitness 0.8 0.7 true).
  - discriminate.
  - repeat constructor.
Defined.

Lemma track_many_empty_results
    (wid : string) (times : list Q) (tr : Tracker) :
  times ≠ [] →
  Forall (steady 0.8 0.7 true) (default [] (evolution_history tr !! wid)) →
  ∃ tr' h,
    track_many (empty_results wid times) tr = (Ok tt, tr') ∧
    h ≠ [] ∧ Forall (steady 0.8 0.7 true) h ∧
    fitness_scores tr' !! wid = Some (computed_fitness h) ∧
    mutation_strategies tr' !! wid = Some (suggested (computed_fitness h)).
Proof.
  revert tr. induction times as [|t times IH]; [congruence|].
  intros tr _ Hs. cbn [empty_results map track_many]. unfold bind.
  rewrite track_execution_run.
  set (d := evolution_data_of no_fields t).
  assert (Hs1 : Forall (steady 0.8 0.7 true)
                  (default [] (evolution_history tr !! wid) ++ [d])).
  { apply Forall_app. split; [done|]. repeat constructor. }
  destruct times as [|t' times].
  - eexists _, _. split; [reflexivity|].
    split; [|split; [exact Hs1|split;
      [apply tracked_fitness|apply tracked_mutations]]].
    by destruct (default [] _).
  - apply IH; [discriminate|]. by rewrite tracked_history.
Qed.

(** X22: a workflow for which only empty result dicts are recorded looks
    healthy: after one or more such records on a fresh id, the stored
    fitness lies strictly between 0.82 and 0.84, above the 0.7 threshold,
    and no mutation is suggested. *)
Theorem empty_results_look_healthy
    (tr : Tracker) (wid : string) (times : list Q) :
  evolution_history tr !! wid = None → times ≠ [] →
  ∃ tr' f,
    track_many (empty_results wid times) tr = (Ok tt, tr') ∧
    fitness_scores tr' !! wid = Some f ∧
    0.82 < f ∧ f < 0.84 ∧
    mutation_strategies tr' !! wid = Some [].
Proof.
  intros Hnone Hne.
  destruct (track_many_empty_results wid times tr Hne)
    as (tr' & h & Hrun & Hh & Hs & Hf & Hm).
  { rewrite Hnone. constructor. }
  assert (E : computed_fitness h
              == 0.4 * 0.8 + 0.3 * 0.7 + 0.3 * Q_of_bool true).
  { apply fitness_of_steady.
    - apply py_last_n_nonempty; [lia|done].
    - unfold py_last_n. by apply Forall_drop. }
  exists tr', (computed_fitness h). split; [done|]. split; [done|].
  split; [rewrite E; reflexivity|]. split; [rewrite E; reflexivity|].
  rewrite Hm. f_equal. apply suggested_high. rewrite E. vm_compute.
  discriminate.
Qed.

Lemma empty_results_look_healthy_witness :
  ∃ tr' f,
    track_many (empty_results "qwf_1" [1; 2; 3])
      WorkflowEvolutionTracker.__init__ = (Ok tt, tr') ∧
    fitness_scores tr' !! "qwf_1" = Some f ∧
    0.82 < f ∧ f < 0.84 ∧
    mutation_strategies tr' !! "qwf_1" = Some [].
Proof.
  apply (empty_results_look_healthy WorkflowEvolutionTracker.__init__
           "qwf_1" [1; 2; 3]).
  - reflexivity.
  - discriminate.
Defined.

(** ** Intents *)

Lemma goal_word_tests (description : string) :
  str_in "customer" (lower (_extract_primary_goal description))
    = mentions_customer_email description ∧
  str_in "customer" (_extract_primary_goal description)
    = mentions_customer_email description ∧
  str_in "backup" (_extract_primary_goal description) = false.
Proof.
  unfold _extract_primary_goal, mentions_customer_email.
  destruct (str_in "customer" description && str_in "email" description),
    (str_in "backup" description || str_in "save" description),
    (str_in "notify" description || str_in "alert" description);
    repeat split; vm_compute; reflexivity.
Qed.

(** X23: every description gets one of the four categories; it gets the
    customer category exactly when it mentions both [customer] and [email],
    whatever else it mentions; and the category names are such that
    [customer] occurs in the (lowered) goal exactly in that case, while
    [backup] occurs in no goal at all. *)
Theorem primary_goal_categories (description : string) :
  let goal := _extract_primary_goal description in
  goal ∈ goal_categories ∧
  (goal = customer_communication ↔
   mentions_customer_email description = true) ∧
  str_in "customer" (lower goal) = mentions_customer_email description ∧
  str_in "customer" goal = mentions_customer_email description ∧
  str_in "backup" goal = false.
Proof.
  cbv zeta. unfold _extract_primary_goal, mentions_customer_email.
  destruct (str_in "customer" description), (str_in "email" description),
    (str_in "backup" description), (str_in "save" description),
    (str_in "notify" description), (str_in "alert" description);
    cbn [andb orb];
    (split; [|split; [|split; [|split]]]);
    try (vm_compute; reflexivity);
    try (split; [reflexivity || discriminate | reflexivity || discriminate]);
    unfold goal_categories;
    repeat (first [apply list_elem_of_here | apply list_elem_of_further]).
Qed.

Lemma primary_goal_categories_witness :
  _extract_primary_goal "email the customer, then backup and alert"
    = customer_communication.
Proof.
  apply (proj1 (proj2 (primary_goal_categories
                         "email the customer, then backup and alert"))).
  vm_compute. reflexivity.
Defined.

(** X24: every description gets the four emotional signals and nothing
    else, each with a value in [0,1]; the stress level is above 0.5 exactly
    when the lowered description mentions [problem]. *)
Theorem emotional_context_in_unit (description : string) :
  let ec := _analyze_emotional_context description in
  (∀ k, is_Some (ec !! k) ↔ k ∈ emotional_signals) ∧
  (∀ k x, ec !! k = Some x → in_unit x) ∧
  (∃ x, ec !! "stress_level" = Some x ∧
        (0.5 < x ↔ str_in "problem" (lower description) = true)).
Proof.
  cbv zeta. unfold _analyze_emotional_context.
  destruct (str_in "urgent" (lower description)),
    (str_in "problem" (lower description)),
    (str_in "team" (lower description));
    (split; [|split]);
    try (intros k; rewrite <- elem_of_dom, !dom_insert_L, dom_empty_L;
         unfold emotional_signals; set_solver);
    try (intros k x Hk;
         repeat (apply lookup_insert_Some in Hk as [[_ <-]|[_ Hk]];
                 [split; vm_compute; discriminate|]);
         by rewrite lookup_empty in Hk);
    try (eexists; split; [reflexivity|]; split;
         [intros H; (reflexivity || (vm_compute in H; discriminate))
         |intros H; (discriminate || reflexivity)]).
Qed.

Lemma emotional_context_in_unit_witness :
  in_unit 0.8 ∧ in_unit 0.7.
Proof.
  split.
  - apply (proj1 (proj2 (emotional_context_in_unit "URGENT: team problem"))
             "stress_level" 0.8).
    vm_compute. reflexivity.
  - apply (proj1 (proj2 (emotional_context_in_unit "URGENT: team problem"))
             "urgency" 0.7).
    vm_compute. reflexivity.
Defined.

(** X25: [understand_intent] never fails; it returns the analysis of the
    description and files it in the memory under the description, replacing
    what was there and leaving every other entry alone; understanding the
    same description again changes nothing. *)
Theorem understand_intent_memory
    (description : string) (s : Consciousness) :
  ∃ i s',
    understand_intent description s = (Ok i, s') ∧
    i = intent_analysis_of description ∧
    memory_network s' !! description = Some i ∧
    (∀ other, other ≠ description →
              memory_network s' !! other = memory_network s !! other) ∧
    understand_intent description s' = (Ok i, s').
Proof.
  eexists _, _. split; [reflexivity|]. split; [reflexivity|].
  split; [apply lookup_insert_eq|]. split.
  - intros other Hne. simpl. by rewrite lookup_insert_ne.
  - unfold understand_intent, bind, modify, ret. simpl.
    by rewrite insert_insert_eq.
Qed.

Lemma understand_intent_memory_witness :
  ∃ i s',
    understand_intent "backup my files" ConsciousnessEngine.__init__
      = (Ok i, s') ∧
    memory_network s' !! "notify the team"
      = memory_network ConsciousnessEngine.__init__ !! "notify the team".
Proof.
  destruct (understand_intent_memory "backup my files"
              ConsciousnessEngine.__init__)
    as (i & s' & Hrun & _ & _ & Hother & _).
  exists i, s'. split; [exact Hrun|]. apply Hother. discriminate.
Defined.

(** ** Criticality *)

(** X26: for every intent the consciousness level lies in [0.5, 1]; the
    three increments add up to 1.05 and the cap brings that to 1. *)
Theorem consciousness_level_bounds (i : Intent) :
  0.5 <= _calculate_consciousness_level i ∧
  _calculate_consciousness_level i <= 1.
Proof.
  unfold _calculate_consciousness_level.
  destruct (Qlt_le_dec 0.5 _), (3 <? length (hidden_requirements i))%nat,
    (str_in "customer" (lower (primary_goal i)));
    match goal with
    | |- context [Qlt_le_dec 1.0 ?b] => destruct (Qlt_le_dec 1.0 b)
    end; split; lra.
Qed.

Lemma stress_level_of (description : string) :
  default 0 (_analyze_emotional_context description !! "stress_level")
  = if str_in "problem" (lower description) then 0.8 else 0.2.
Proof.
  unfold _analyze_emotional_context.
  rewrite lookup_insert_ne by discriminate. by rewrite lookup_insert_eq.
Qed.

(** X27: for the intent understood from a description the level falls in
    one of three separate bands: between 0.64 and 0.66 when the lowered
    description does not mention [problem] and the description does not
    mention both [customer] and [email]; between 0.84 and 0.86 when exactly
    one of the two holds; and exactly 1, the cap, when both hold. *)
Theorem consciousness_level_of_description (description : string) :
  let level :=
    _calculate_consciousness_level (intent_analysis_of description) in
  match str_in "problem" (lower description),
        mentions_customer_email description with
  | false, false => 0.64 < level ∧ level < 0.66
  | true, false | false, true => 0.84 < level ∧ level < 0.86
  | true, true => level = 1.0
  end.
Proof.
  cbv zeta. unfold _calculate_consciousness_level.
  cbn [intent_analysis_of primary_goal emotional_context hidden_requirements].
  rewrite stress_level_of.
  destruct (goal_word_tests description) as (-> & _).
  destruct (str_in "problem" (lower description)),
    (mentions_customer_email description);
    try (split; vm_compute; reflexivity); vm_compute; reflexivity.
Qed.

(** ** Trigger patterns *)

Lemma learn_trigger_patterns_run
    (wid : string) (w : Workflow) (random : nat → Q) (s : Predictive) :
  _learn_trigger_patterns wid w random s =
    (Ok tt,
     {| pattern_cache :=
          <[wid :=
              {| likely_triggers := trigger_patterns_of (intent w);
                 confidence_scores :=
                   confidence_from (trigger_patterns_of (intent w))
                                   random 0 ∅ |}]>
            (pattern_cache s) |}).
Proof. reflexivity. Qed.

(** X28: for a workflow whose intent was understood from a description,
    the learned triggers are the four customer triggers when the
    description mentions both [customer] and [email], and none at all
    otherwise: no category name contains [backup], so the four backup
    triggers are never learned, not even for a backup description. *)
Theorem learned_triggers_of_description
    (wid description : string) (w : Workflow) (random : nat → Q)
    (s : Predictive) :
  intent w = intent_analysis_of description →
  ∃ tp s',
    _learn_trigger_patterns wid w random s = (Ok tt, s') ∧
    pattern_cache s' !! wid = Some tp ∧
    likely_triggers tp =
      (if mentions_customer_email description
       then customer_triggers else []) ∧
    ∀ t, t ∈ backup_triggers → t ∉ likely_triggers tp.
Proof.
  intros Hi. eexists _, _. split; [apply learn_trigger_patterns_run|].
  split; [apply lookup_insert_eq|].
  cbn [likely_triggers]. rewrite Hi. unfold trigger_patterns_of.
  cbn [intent_analysis_of primary_goal].
  destruct (goal_word_tests description) as (_ & -> & ->).
  destruct (mentions_customer_email description); split; try reflexivity.
  - intros t Ht Hc. unfold backup_triggers, customer_triggers in *.
    simpl in Hc.
    repeat (apply elem_of_cons in Ht as [->|Ht]); [..|inversion Ht];
      repeat (apply elem_of_cons in Hc as [Hc|Hc]; [discriminate|]);
      inversion Hc.
  - intros t _ Hc. inversion Hc.
Qed.

Lemma learned_triggers_of_description_witness :
  ∃ tp s',
    _learn_trigger_patterns "qwf_2"
      (understood_workflow "qwf_2" "backup my files every night")
      (fun _ => 0.5) {| pattern_cache := ∅ |} = (Ok tt, s') ∧
    pattern_cache s' !! "qwf_2" = Some tp ∧
    likely_triggers tp = [].
Proof.
  destruct (learned_triggers_of_description "qwf_2"
              "backup my files every night"
              (understood_workflow "qwf_2" "backup my files every night")
              (fun _ => 0.5) {| pattern_cache := ∅ |})
    as (tp & s' & Hrun & Hl & Ht & _); [reflexivity|].
  exists tp, s'. split; [exact Hrun|]. split; [exact Hl|]. exact Ht.
Defined.

Lemma confidence_from_range
    (random : nat → Q) (patterns : list string) (k : nat)
    (acc : gmap string Q) :
  unit_random random →
  (∀ p x, acc !! p = Some x → 0.7 <= x ∧ x < 1) →
  ∀ p x, confidence_from patterns random k acc !! p = Some x →
         0.7 <= x ∧ x < 1.
Proof.
  intros Hr. revert k acc.
  induction patterns as [|p0 rest IH]; intros k acc Hacc p x; simpl.
  - apply Hacc.
  - apply IH. intros q y Hq.
    apply lookup_insert_Some in Hq as [[_ <-]|[_ Hq]]; [|by eapply Hacc].
    destruct (Hr k). split; lra.
Qed.

Lemma confidence_from_dom
    (random : nat → Q) (patterns : list string) (k : nat)
    (acc : gmap string Q) :
  dom (confidence_from patterns random k acc)
  = list_to_set patterns ∪ dom acc.
Proof.
  revert k acc. induction patterns as [|p0 rest IH]; intros k acc; simpl.
  - by rewrite (left_id_L ∅ (∪)).
  - rewrite IH, dom_insert_L, (assoc_L (∪)).
    by rewrite (comm_L (∪) (list_to_set rest)).
Qed.

(** X29: whatever the intent, when the random source returns values in
    [0,1) the learned confidence scores cover exactly the learned triggers,
    one score each, and every score lies in [0.7, 1). *)
Theorem confidence_scores_range
    (wid : string) (w : Workflow) (random : nat → Q) (s : Predictive) :
  unit_random random →
  ∃ tp s',
    _learn_trigger_patterns wid w random s = (Ok tt, s') ∧
    pattern_cache s' !! wid = Some tp ∧
    (∀ p, is_Some (confidence_scores tp !! p) ↔ p ∈ likely_triggers tp) ∧
    (∀ p x, confidence_scores tp !! p = Some x → 0.7 <= x ∧ x < 1).
Proof.
  intros Hr. eexists _, _. split; [apply learn_trigger_patterns_run|].
  split; [apply lookup_insert_eq|]. cbn [likely_triggers confidence_scores].
  split.
  - intros p. rewrite <- elem_of_dom, confidence_from_dom, dom_empty_L.
    by rewrite (right_id_L ∅ (∪)), elem_of_list_to_set.
  - apply confidence_from_range; [done|]. intros p x Hp.
    by rewrite lookup_empty in Hp.
Qed.

Lemma confidence_scores_range_witness :
  ∃ tp s',
    _learn_trigger_patterns "qwf_1" customer_workflow (fun _ => 0.5)
      {| pattern_cache := ∅ |} = (Ok tt, s') ∧
    pattern_cache s' !! "qwf_1" = Some tp ∧
    (∀ p x, confidence_scores tp !! p = Some x → 0.7 <= x ∧ x < 1).
Proof.
  destruct (confidence_scores_range "qwf_1" customer_workflow
              (fun _ => 0.5) {| pattern_cache := ∅ |})
    as (tp & s' & Hrun & Hl & _ & Hc).
  - intros k. split; vm_compute; (discriminate || reflexivity).
  - exists tp, s'. split; [exact Hrun|]. split; [exact Hl|exact Hc].
Defined.
